(** * Contract extraction bot: resume tracker, batch planner, contract
      processor and batch runner.

    A shallow embedding of [core/contracts.py], [core/documents.py],
    [utils/file_utils.py] and [main.py].  Python values are modelled as
    follows:

    - [str] as [string], [int] as [Z], [list] as [list], [None]-able values
      as [option];
    - a call that may raise a Python [Exception] returns a [res]: either
      [Ret v] or [Raise].  Only the class [Exception] is modelled, which is
      what every [except Exception] handler of the source catches;
    - [time.time()] reads a clock kept in the [world], counted in
      milliseconds; [int(t1 - t0)] of a difference in seconds is then the
      truncated quotient by 1000;
    - the browser page is external: its answers to the Playwright calls of
      each gateway function are given by a script, a function of the list
      of gateway calls made so far. *)

From Stdlib Require Import String List ZArith Bool Lia.
From Stdlib Require Import Ascii DecimalString DecimalZ DecimalPos.
Import ListNotations.
Local Open Scope string_scope.
Local Open Scope Z_scope.

(** ** Results of calls that may raise *)

Inductive res (A : Type) : Type :=
| Ret (a : A)
| Raise.
Arguments Ret {A} a.
Arguments Raise {A}.

Definition res_bind {A B : Type} (r : res A) (k : A -> res B) : res B :=
  match r with
  | Ret a => k a
  | Raise => Raise
  end.

Declare Scope res_scope.
Delimit Scope res_scope with res.
Notation "x <- r ;; k" := (res_bind r (fun x => k))
  (at level 61, r at next level, right associativity) : res_scope.
Notation "r ;;; k" := (res_bind r (fun _ => k))
  (at level 61, right associativity) : res_scope.

(** [try: body except Exception: handler] for a body without effects on
    the model's state. *)
Definition try_except {A : Type} (body : res A) (handler : res A) : res A :=
  match body with
  | Ret a => Ret a
  | Raise => handler
  end.

(** ** Python list operations used by the planner *)

(** Position of a slice bound inside a list of length [len]: a negative
    bound counts from the end, and every bound is clamped to [0..len]. *)
Definition slice_bound (len i : Z) : Z :=
  if i <? 0 then Z.max 0 (i + len) else Z.min i len.

(** [l[start:stop]] *)
Definition py_slice {A : Type} (l : list A) (start stop : Z) : list A :=
  let len := Z.of_nat (length l) in
  let a := slice_bound len start in
  let b := slice_bound len stop in
  firstn (Z.to_nat (b - a)) (skipn (Z.to_nat a) l).

(** [x in l] *)
Definition py_in (x : string) (l : list string) : bool :=
  existsb (String.eqb x) l.

(** [l.index(x)], the position of the first occurrence; it is only called
    where [x in l] holds, and the model returns [length l] otherwise. *)
Fixpoint py_index (x : string) (l : list string) : nat :=
  match l with
  | [] => O
  | y :: r => if String.eqb x y then O else S (py_index x r)
  end.

(** Truth value of an optional string: [None] and the empty string are
    false. *)
Definition truthy (s : option string) : bool :=
  match s with
  | None => false
  | Some s => negb (String.eqb s "")
  end.

(** ** Batch planner: [get_contracts_to_process] *)

(** The input spreadsheet as [pd.read_excel] sees it: absent, unreadable
    (the read raises), or a table whose columns are given by name, every
    cell already converted by [astype(str)]. *)
Inductive input_file : Type :=
| NoFile
| Unreadable
| Sheet (columns : list (string * list string)).

Fixpoint column (name : string) (cols : list (string * list string))
  : option (list string) :=
  match cols with
  | [] => None
  | (n, cells) :: r => if String.eqb name n then Some cells else column name r
  end.

Definition get_contracts_to_process
  (last_processed_id : option string) (file : input_file) (quantity : Z)
  : list string :=
  match file with
  | NoFile => []
  | Unreadable => []
  | Sheet df =>
      match column "Contract_ID" df with
      | None => []
      | Some contract_ids =>
          if negb (truthy last_processed_id)
             || negb (match last_processed_id with
                      | Some l => py_in l contract_ids
                      | None => false
                      end)
          then py_slice contract_ids 0 quantity
          else
            match last_processed_id with
            | None => []
            | Some l =>
                let last_index := Z.of_nat (py_index l contract_ids) in
                let next_index := last_index + 1 in
                py_slice contract_ids next_index (next_index + quantity)
            end
      end
  end.

(** ** Resume tracker: [get_last_contract_id] *)

(** One entry of the output root: its name and the answers of [is_dir()],
    [any(glob("*"))] and [os.path.getmtime], each of which may raise. *)
Record dir_entry : Type := {
  entry_name : string;
  is_dir : res bool;
  glob_any : res bool;
  getmtime : res Z
}.

(** The output root [EXTRACTED_CONTRACTS_DIR]: the answers of [exists()]
    and of [iterdir()].  [Path.exists()] answers false for a missing path
    and raises for the other errors of the underlying [stat]. *)
Record out_dir : Type := {
  dir_exists : res bool;
  iterdir : res (list dir_entry)
}.

(** The list comprehension: entries that are directories with at least
    one child, in listing order; [and] does not evaluate the glob of an
    entry that is not a directory. *)
Fixpoint nonempty_dirs (entries : list dir_entry) : res (list dir_entry) :=
  match entries with
  | [] => Ret []
  | d :: r =>
      (keep <- (b <- is_dir d ;; if b then glob_any d else Ret false) ;;
       rest <- nonempty_dirs r ;;
       Ret (if keep then d :: rest else rest))%res
  end.

(** [max(best :: rest, key=getmtime)] once the key of [best] is known: a
    later entry replaces the current one only with a strictly larger
    key. *)
Fixpoint max_from (best : dir_entry) (best_key : Z) (rest : list dir_entry)
  : res dir_entry :=
  match rest with
  | [] => Ret best
  | d :: r =>
      (t <- getmtime d ;;
       if best_key <? t then max_from d t r else max_from best best_key r)%res
  end.

Definition max_by_mtime (folders : list dir_entry) : res (option dir_entry) :=
  match folders with
  | [] => Ret None
  | d :: r => (t <- getmtime d ;; best <- max_from d t r ;; Ret (Some best))%res
  end.

(** The [exists()] check stands before the [try]: an exception it raises
    leaves the function.  Everything after it is inside the [try], whose
    handler returns [None]. *)
Definition get_last_contract_id (root : out_dir) : res (option string) :=
  (present <- dir_exists root ;;
   if negb present then Ret None
   else
     try_except
       (entries <- iterdir root ;;
        folders <- nonempty_dirs entries ;;
        match folders with
        | [] => Ret None
        | _ =>
            last_folder <- max_by_mtime folders ;;
            Ret (option_map entry_name last_folder)
        end)
       (Ret None))%res.

(** ** The world: clock, history of gateway calls, report directory *)

(** A number stored in the [Duration] column: the [int] computed by
    [process_contract], or [round(elapsed, 2)] as computed by the batch
    loop, kept as the elapsed milliseconds it rounds. *)
Inductive number : Type :=
| Int (n : Z)
| Round2 (elapsed_ms : Z).

(** A path, as the operands of pathlib's [/], first operand first. *)
Definition path : Type := list string.

(** [str(p)], kept as the path it is the text of: how pathlib joins and
    prints the operands (separators inside an operand, empty and anchored
    operands) is outside the model. *)
Inductive path_string : Type :=
| Str (p : path).

(** The dictionary returned by [process_contract], and a row of the
    report. *)
Record outcome : Type := {
  Contract_ID : string;
  Status : string;
  Duration : number;
  File_Path : option path_string
}.

Inductive event : Type :=
| EvLogin
| EvSearch (contract_id : string)
| EvOpen (contract_id : string)
| EvAccessDocuments (contract_id : string)
| EvDownload (contract_id : string)
| EvNavigateHome
| EvSaveReport
| EvBrowserClose.

Record world : Type := {
  now : Z;                          (* clock, in milliseconds *)
  trace : list event;               (* calls made so far, oldest first *)
  excel_writable : bool;            (* whether [to_excel] succeeds *)
  saved_reports : list (list outcome)   (* report files written so far *)
}.

Definition M (A : Type) : Type := world -> res A * world.

(** A gateway call: it is recorded in the history and takes [ms]
    milliseconds. *)
Definition after_call (e : event) (ms : Z) (w : world) : world :=
  {| now := now w + ms;
     trace := (trace w ++ [e])%list;
     excel_writable := excel_writable w;
     saved_reports := saved_reports w |}.

(** [int(t1 - t0)] for clock readings in milliseconds. *)
Definition int_seconds (elapsed_ms : Z) : Z := Z.quot elapsed_ms 1000.

(** ** The page script *)

(** Answers of the page to the Playwright calls of the next gateway
    function, one field per call site, and the time each function takes.
    A settle delay ([wait_for_timeout], [time.sleep]) is part of the call
    it follows. *)
Record ui : Type := {
  (* login *)
  login_form : res unit;
  btn_bqrtm_visible : res bool;
  btn_bqrtm_click : res unit;
  post_login_visible : res bool;
  login_ms : Z;
  (* navigate_to_homepage *)
  home_goto : res unit;
  home_ms : Z;
  (* search_contract *)
  search_field : res unit;
  search_ms : Z;
  (* open_contract *)
  table_visible : res unit;
  link_count : res nat;
  link_title_attr : res (option string);
  link_inner_text : res string;
  link_mid : res (option string);
  link_click : res unit;
  open_option_count : res nat;
  open_option_click : res unit;
  title_visible : res unit;
  docs_text_count : res nat;
  overview_text_count : res nat;
  open_ms : Z;
  (* access_contract_documents *)
  selected_tab_count : res nat;
  tab_count : res nat;
  tab_click : res unit;
  actions_count : res nat;
  actions_click : res unit;
  menu_option_count : res nat;
  mymenu_option_count : res nat;
  docs_option_click : res unit;
  download_page_visible : res unit;
  access_ms : Z;
  (* download_contract_documents *)
  dl_page_visible : res unit;
  checkbox_click : res unit;
  checkbox_input_click : res unit;
  expect_download : res string;     (* the suggested file name *)
  mkdir : res unit;
  save_as : res unit;
  no_documents_count : res nat;
  download_ms : Z
}.

(** The page: what it will answer, given the calls made so far. *)
Definition Page : Type := list event -> ui.

Definition EXTRACTED_CONTRACTS_DIR : path :=
  ["\\pfs01\SistemasTI\GerenciaSistemasIV\SistemasTigre\Alberto\01 Squad Compras\Build\SPRMNTS-2251 - Projeto de Implantação Coupa\AS IS\Juridico\Carga\Base PÓS GO LIVE"].

Definition nonzero (n : nat) : bool := negb (Nat.eqb n 0).

(** ** Gateway functions of [core/contracts.py] *)

Definition login_body (u : ui) : res bool :=
  try_except
    (login_form u ;;;
     visible <- btn_bqrtm_visible u ;;
     (if visible then btn_bqrtm_click u else Ret tt) ;;;
     ok <- post_login_visible u ;;
     if negb ok then Ret false else Ret true)%res
    (Ret false).

Definition login (page : Page) (username password url : string) : M bool :=
  fun w =>
    let u := page (trace w) in
    (login_body u, after_call EvLogin (login_ms u) w).

Definition navigate_to_homepage_body (u : ui) : res bool :=
  try_except (home_goto u ;;; Ret true)%res (Ret false).

Definition navigate_to_homepage (page : Page) (url : string) : M bool :=
  fun w =>
    let u := page (trace w) in
    (navigate_to_homepage_body u, after_call EvNavigateHome (home_ms u) w).

Definition search_contract_body (u : ui) : res bool :=
  try_except (search_field u ;;; Ret true)%res (Ret false).

Definition search_contract (page : Page) (contract_id : string) : M bool :=
  fun w =>
    let u := page (trace w) in
    (search_contract_body u, after_call (EvSearch contract_id) (search_ms u) w).

Definition open_contract_body (u : ui) : res string :=
  try_except
    (table_visible u ;;;
     n <- link_count u ;;
     if negb (nonzero n) then Ret "NOT_FOUND"
     else
       title <- link_title_attr u ;;
       (if truthy title then Ret tt
        else (link_inner_text u ;;; Ret tt)) ;;;
       menu_id <- link_mid u ;;
       if negb (truthy menu_id) then Ret "NOT_FOUND"
       else
         link_click u ;;;
         m <- open_option_count u ;;
         if negb (nonzero m) then Ret "NOT_FOUND"
         else
           open_option_click u ;;;
           try_except
             (title_visible u ;;; Ret "OPENED")
             (d <- docs_text_count u ;;
              if nonzero d then Ret "OPENED"
              else
                o <- overview_text_count u ;;
                if nonzero o then Ret "OPENED" else Ret "NOT_FOUND"))%res
    (Ret "ERROR").

Definition open_contract (page : Page) (contract_id : string) : M string :=
  fun w =>
    let u := page (trace w) in
    (open_contract_body u, after_call (EvOpen contract_id) (open_ms u) w).

(** ** Gateway functions of [core/documents.py] *)

Definition access_contract_documents_body (u : ui) : res bool :=
  try_except
    (n <- selected_tab_count u ;;
     reached <-
       (if negb (nonzero n) then
          k <- tab_count u ;;
          if negb (nonzero k) then Ret false
          else (tab_click u ;;; Ret true)
        else Ret true) ;;
     if negb reached then Ret false
     else
       a <- actions_count u ;;
       if negb (nonzero a) then Ret false
       else
         actions_click u ;;;
         m <- menu_option_count u ;;
         found <-
           (if negb (nonzero m) then
              m' <- mymenu_option_count u ;;
              Ret (nonzero m')
            else Ret true) ;;
         if negb found then Ret false
         else
           docs_option_click u ;;;
           download_page_visible u ;;;
           Ret true)%res
    (Ret false).

Definition access_contract_documents (page : Page) (contract_id : string)
  : M bool :=
  fun w =>
    let u := page (trace w) in
    (access_contract_documents_body u,
     after_call (EvAccessDocuments contract_id) (access_ms u) w).

(** The handler of [download_contract_documents] probes the page before it
    answers ["NO_FILES"]; the probe is outside every [try] of the function,
    so a raise of the probe leaves the function. *)
Definition download_contract_documents_body (u : ui) (contract_id : string)
  : res (string * option path) :=
  try_except
    (dl_page_visible u ;;;
     try_except (checkbox_click u) (checkbox_input_click u) ;;;
     suggested_filename <- expect_download u ;;
     let contract_dir := (EXTRACTED_CONTRACTS_DIR ++ [contract_id])%list in
     mkdir u ;;;
     let zip_path := (contract_dir ++ [suggested_filename])%list in
     save_as u ;;;
     Ret ("DOWNLOADED", Some zip_path))%res
    (c <- no_documents_count u ;;
     if nonzero c then Ret ("NO_FILES", None)
     else Ret ("NO_FILES", None))%res.

Definition download_contract_documents (page : Page) (contract_id : string)
  : M (string * option path) :=
  fun w =>
    let u := page (trace w) in
    (download_contract_documents_body u contract_id,
     after_call (EvDownload contract_id) (download_ms u) w).

(** ** Contract processor: [process_contract] *)

(** The local variables that are live after the [try] block. *)
Record locals : Type := {
  status : string;
  file_path : option path
}.

(** How the [try] block is left: by reaching its end, by its [return]
    statement, or by an exception. *)
Inductive completion : Type :=
| Completed
| Returned (r : outcome)
| Raised.

Definition try_block (page : Page) (contract_id : string) (start_time : Z)
  : world -> completion * locals * world :=
  fun w =>
    let status0 := "PROCESSED" in
    let file_path0 : option path := None in
    match search_contract page contract_id w with
    | (Raise, w) => (Raised, {| status := status0; file_path := file_path0 |}, w)
    | (Ret found, w) =>
    if negb found then
      (Raised, {| status := "SEARCH_FAILED"; file_path := file_path0 |}, w)
    else
    match open_contract page contract_id w with
    | (Raise, w) => (Raised, {| status := status0; file_path := file_path0 |}, w)
    | (Ret open_status, w) =>
    if String.eqb open_status "NOT_FOUND" then
      (Returned {| Contract_ID := contract_id;
                   Status := "NOT_FOUND";
                   Duration := Int (int_seconds (now w - start_time));
                   File_Path := None |},
       {| status := "NOT_FOUND"; file_path := file_path0 |}, w)
    else if negb (String.eqb open_status "OPENED") then
      (Raised, {| status := "OPEN_FAILED"; file_path := file_path0 |}, w)
    else
    match access_contract_documents page contract_id w with
    | (Raise, w) => (Raised, {| status := status0; file_path := file_path0 |}, w)
    | (Ret accessed, w) =>
    if negb accessed then
      (Raised,
       {| status := "DOCUMENTS_ACCESS_FAILED"; file_path := file_path0 |}, w)
    else
    match download_contract_documents page contract_id w with
    | (Raise, w) => (Raised, {| status := status0; file_path := file_path0 |}, w)
    | (Ret (download_status, file_path1), w) =>
    if String.eqb download_status "NO_FILES" then
      (Completed, {| status := "NO_FILES"; file_path := file_path1 |}, w)
    else if negb (String.eqb download_status "DOWNLOADED") then
      (Raised, {| status := "DOWNLOAD_FAILED"; file_path := file_path1 |}, w)
    else
      (Completed, {| status := status0; file_path := file_path1 |}, w)
    end end end end.

(** The handler [except Exception] prefixes the status; the [finally]
    block then runs however the [try] block was left, and its own
    [return] replaces both a pending [return] of the [try] block and a
    pending exception. *)
Definition process_contract (page : Page) (contract_id ariba_url : string)
  : M outcome :=
  fun w =>
    let start_time := now w in
    let '(c, l, w) := try_block page contract_id start_time w in
    let status1 :=
      match c with
      | Raised => "ERROR_" ++ status l
      | _ => status l
      end in
    let duration := int_seconds (now w - start_time) in
    match navigate_to_homepage page ariba_url w with
    | (Raise, w) => (Raise, w)
    | (Ret _, w) =>
        (Ret {| Contract_ID := contract_id;
                Status := status1;
                Duration := Int duration;
                File_Path := option_map Str (file_path l) |}, w)
    end.

(** ** Report aggregator: [save_report] and [generate_summary] *)

(** The report file is named after the clock reading; the model returns
    that reading as the path. *)
Definition save_report (df : list outcome) : M Z :=
  fun w =>
    if excel_writable w then
      (Ret (now w),
       {| now := now w;
          trace := (trace w ++ [EvSaveReport])%list;
          excel_writable := excel_writable w;
          saved_reports := (saved_reports w ++ [df])%list |})
    else (Raise, w).

Record summary : Type := {
  total_time : Z;
  processed_count : Z;
  success_count : Z;
  no_files_count : Z;
  error_count : Z;
  report_path : Z
}.

(** [len(df[df["Status"] == s])] *)
Definition count_status (s : string) (df : list outcome) : Z :=
  Z.of_nat (length (filter (fun r => String.eqb (Status r) s) df)).

Definition generate_summary
  (report_data : list outcome) (start_time : Z) (path_of_report : Z)
  (w : world) : summary :=
  let success := count_status "PROCESSED" report_data in
  let no_files := count_status "NO_FILES" report_data in
  let errors := Z.of_nat (length report_data) - success - no_files in
  {| total_time := int_seconds (now w - start_time);
     processed_count := Z.of_nat (length report_data);
     success_count := success;
     no_files_count := no_files;
     error_count := errors;
     report_path := path_of_report |}.

(** ** Batch runner: the loop and the [finally] block of [main] *)

(** [controller.should_stop] is written by the listener thread; the loop
    only reads it, once before each contract.  [should_stop n] is the
    value read when [n] contracts have been handled. *)
Record ProcessController : Type := {
  should_stop : nat -> bool
}.

Definition error_row (contract_id : string) : outcome :=
  {| Contract_ID := contract_id;
     Status := "ERROR";
     Duration := Int 0;
     File_Path := None |}.

Inductive exit_status : Type :=
| Finished
| SysExit1.

Section BatchRunner.

(** The processor called by the loop; [main] calls [process_contract]. *)
Variable processor : Page -> string -> string -> M outcome.
Variable controller : ProcessController.
Variable page : Page.
Variables ARIBA_LOGIN ARIBA_PASSWORD URL_ARIBA : string.

Fixpoint for_loop (contract_ids : list string) (handled : nat)
  (report_data : list outcome) (w : world) : list outcome * world :=
  match contract_ids with
  | [] => (report_data, w)
  | contract_id :: rest =>
      if should_stop controller handled then (report_data, w)
      else
        let contract_start_time := now w in
        match processor page contract_id URL_ARIBA w with
        | (Ret result, w) =>
            let duration := Round2 (now w - contract_start_time) in
            for_loop rest (S handled)
              (report_data ++ [{| Contract_ID := contract_id;
                                  Status := Status result;
                                  Duration := duration;
                                  File_Path := File_Path result |}])%list
              w
        | (Raise, w) =>
            for_loop rest (S handled)
              (report_data ++ [error_row contract_id])%list w
        end
  end.

Definition browser_close (w : world) : world :=
  {| now := now w;
     trace := (trace w ++ [EvBrowserClose])%list;
     excel_writable := excel_writable w;
     saved_reports := saved_reports w |}.

(** The inner [try ... except ... finally] of [main], from the login to
    the closing of the browser. *)
Definition run_session (contract_ids : list string)
  : world -> exit_status * world :=
  fun w =>
    let '(raised, report_data, w) :=
      match login page ARIBA_LOGIN ARIBA_PASSWORD URL_ARIBA w with
      | (Raise, w) => (true, [], w)
      | (Ret logged, w) =>
          if negb logged then (false, [], w)
          else
            let '(report_data, w) := for_loop contract_ids 0 [] w in
            (false, report_data, w)
      end in
    (* finally *)
    match
      match report_data with
      | [] => (Ret tt, w)
      | _ =>
          match save_report report_data w with
          | (Ret _, w) => (Ret tt, w)
          | (Raise, w) => (Raise, w)
          end
      end
    with
    | (Raise, w) => (SysExit1, w)
    | (Ret _, w) =>
        let w := browser_close w in
        (if raised then SysExit1 else Finished, w)
    end.

(** [main], from the resume marker on.  Loading the environment, creating
    the directories and starting the browser are outside the model.  An
    exception that leaves [get_last_contract_id] reaches the outermost
    handler of [main], which calls [sys.exit(1)]. *)
Definition main (root : out_dir) (file : input_file) (quantity : Z)
  : world -> exit_status * world :=
  fun w =>
    match get_last_contract_id root with
    | Raise => (SysExit1, w)
    | Ret last_id =>
        let contract_ids :=
          get_contracts_to_process last_id file quantity in
        match contract_ids with
        | [] => (Finished, w)
        | _ => run_session contract_ids w
        end
    end.

End BatchRunner.

(** * Vocabulary of the properties *)

(** A subdirectory that holds at least one entry. *)
Definition nonempty_subdir (d : dir_entry) : Prop :=
  is_dir d = Ret true /\ glob_any d = Ret true.

(** An I/O error met while an entry is inspected: by [is_dir], by the
    glob of a directory, or by [getmtime] of a non-empty directory. *)
Definition probe_error (d : dir_entry) : Prop :=
  is_dir d = Raise \/
  (is_dir d = Ret true /\ glob_any d = Raise) \/
  (nonempty_subdir d /\ getmtime d = Raise).

Definition io_error (root : out_dir) : Prop :=
  iterdir root = Raise \/
  exists entries d,
    iterdir root = Ret entries /\ In d entries /\ probe_error d.

(** The ways through the [try] block of [process_contract], one
    constructor per way of leaving it. *)
Inductive branch (page : Page) (contract_id : string) (start_time : Z)
  (w : world) : completion -> locals -> world -> Prop :=
| BrSearchFailed w1 :
    search_contract page contract_id w = (Ret false, w1) ->
    branch page contract_id start_time w
      Raised {| status := "SEARCH_FAILED"; file_path := None |} w1
| BrNotFound w1 w2 :
    search_contract page contract_id w = (Ret true, w1) ->
    open_contract page contract_id w1 = (Ret "NOT_FOUND", w2) ->
    branch page contract_id start_time w
      (Returned {| Contract_ID := contract_id;
                   Status := "NOT_FOUND";
                   Duration := Int (int_seconds (now w2 - start_time));
                   File_Path := None |})
      {| status := "NOT_FOUND"; file_path := None |} w2
| BrOpenFailed w1 w2 :
    search_contract page contract_id w = (Ret true, w1) ->
    open_contract page contract_id w1 = (Ret "ERROR", w2) ->
    branch page contract_id start_time w
      Raised {| status := "OPEN_FAILED"; file_path := None |} w2
| BrAccessFailed w1 w2 w3 :
    search_contract page contract_id w = (Ret true, w1) ->
    open_contract page contract_id w1 = (Ret "OPENED", w2) ->
    access_contract_documents page contract_id w2 = (Ret false, w3) ->
    branch page contract_id start_time w
      Raised {| status := "DOCUMENTS_ACCESS_FAILED"; file_path := None |} w3
| BrNoFiles w1 w2 w3 w4 :
    search_contract page contract_id w = (Ret true, w1) ->
    open_contract page contract_id w1 = (Ret "OPENED", w2) ->
    access_contract_documents page contract_id w2 = (Ret true, w3) ->
    download_contract_documents page contract_id w3
    = (Ret ("NO_FILES", None), w4) ->
    branch page contract_id start_time w
      Completed {| status := "NO_FILES"; file_path := None |} w4
| BrDownloaded w1 w2 w3 w4 zip_path :
    search_contract page contract_id w = (Ret true, w1) ->
    open_contract page contract_id w1 = (Ret "OPENED", w2) ->
    access_contract_documents page contract_id w2 = (Ret true, w3) ->
    download_contract_documents page contract_id w3
    = (Ret ("DOWNLOADED", Some zip_path), w4) ->
    branch page contract_id start_time w
      Completed {| status := "PROCESSED"; file_path := Some zip_path |} w4
| BrDownloadFault w1 w2 w3 w4 :
    search_contract page contract_id w = (Ret true, w1) ->
    open_contract page contract_id w1 = (Ret "OPENED", w2) ->
    access_contract_documents page contract_id w2 = (Ret true, w3) ->
    download_contract_documents page contract_id w3 = (Raise, w4) ->
    branch page contract_id start_time w
      Raised {| status := "PROCESSED"; file_path := None |} w4.

(** The status recorded once the handler has run. *)
Definition final_status (c : completion) (l : locals) : string :=
  match c with
  | Raised => "ERROR_" ++ status l
  | _ => status l
  end.

(** The statuses [process_contract] can record. *)
Definition recorded_statuses : list string :=
  ["PROCESSED"; "NO_FILES"; "NOT_FOUND"; "ERROR_SEARCH_FAILED";
   "ERROR_OPEN_FAILED"; "ERROR_DOCUMENTS_ACCESS_FAILED"; "ERROR_PROCESSED"].


(** ** Sample sessions *)

(** A page script with the outcomes that vary between the samples as
    parameters: the search field, the number of matching links, the
    download and the probe of the download handler.  Everything else
    succeeds at once, and only the visit of the home page takes time. *)
Definition sample_ui (search : res unit) (links : res nat)
  (download : res string) (probe : res nat) : ui :=
  {| login_form := Ret tt;
     btn_bqrtm_visible := Ret false;
     btn_bqrtm_click := Ret tt;
     post_login_visible := Ret true;
     login_ms := 0;
     home_goto := Ret tt;
     home_ms := 5000;
     search_field := search;
     search_ms := 0;
     table_visible := Ret tt;
     link_count := links;
     link_title_attr := Ret (Some "Contrato de fornecimento");
     link_inner_text := Ret "Contrato de fornecimento";
     link_mid := Ret (Some "_mid42");
     link_click := Ret tt;
     open_option_count := Ret 1%nat;
     open_option_click := Ret tt;
     title_visible := Ret tt;
     docs_text_count := Ret 1%nat;
     overview_text_count := Ret 1%nat;
     open_ms := 0;
     selected_tab_count := Ret 1%nat;
     tab_count := Ret 1%nat;
     tab_click := Ret tt;
     actions_count := Ret 1%nat;
     actions_click := Ret tt;
     menu_option_count := Ret 1%nat;
     mymenu_option_count := Ret 1%nat;
     docs_option_click := Ret tt;
     download_page_visible := Ret tt;
     access_ms := 0;
     dl_page_visible := Ret tt;
     checkbox_click := Ret tt;
     checkbox_input_click := Ret tt;
     expect_download := download;
     mkdir := Ret tt;
     save_as := Ret tt;
     no_documents_count := probe;
     download_ms := 0 |}.

(** Every step succeeds. *)
Definition smooth_page : Page :=
  fun _ => sample_ui (Ret tt) (Ret 1%nat) (Ret "docs.zip") (Ret 0%nat).

(** The search field never becomes visible. *)
Definition search_timeout_page : Page :=
  fun _ => sample_ui Raise (Ret 1%nat) (Ret "docs.zip") (Ret 0%nat).

(** The result table holds no row for the contract. *)
Definition no_row_page : Page :=
  fun _ => sample_ui (Ret tt) (Ret 0%nat) (Ret "docs.zip") (Ret 0%nat).

(** The download never starts, and the page does not say that there are
    no documents. *)
Definition stalled_download_page : Page :=
  fun _ => sample_ui (Ret tt) (Ret 1%nat) Raise (Ret 0%nat).

(** The download never starts because the contract has no documents. *)
Definition no_documents_page : Page :=
  fun _ => sample_ui (Ret tt) (Ret 1%nat) Raise (Ret 1%nat).

Definition fresh_world : world :=
  {| now := 0; trace := []; excel_writable := true; saved_reports := [] |}.

(** The stop key is pressed while the first contract is processed. *)
Definition stop_after_first : ProcessController :=
  {| should_stop := fun handled => negb (Nat.eqb handled 0) |}.

Definition never_stop : ProcessController :=
  {| should_stop := fun _ => false |}.

(** A processor that fails on every contract with an escaping exception. *)
Definition broken_processor : Page -> string -> string -> M outcome :=
  fun _ _ _ w => (Raise, w).

(** An output root with two downloaded contracts and a stray file. *)
Definition sample_root : out_dir :=
  {| dir_exists := Ret true;
     iterdir :=
       Ret [ {| entry_name := "4600001"; is_dir := Ret true;
                glob_any := Ret true; getmtime := Ret 1000 |};
             {| entry_name := "4600002"; is_dir := Ret true;
                glob_any := Ret true; getmtime := Ret 2000 |};
             {| entry_name := "notes.txt"; is_dir := Ret false;
                glob_any := Raise; getmtime := Ret 3000 |} ] |}.

(** An output root on a share that has become unreachable: the [stat]
    behind [exists()] fails with an error other than "not found". *)
Definition unreachable_root : out_dir :=
  {| dir_exists := Raise; iterdir := Raise |}.

(** An identifier column as [pd.read_excel] and [astype(str)] deliver
    it: an empty cell is read as NaN, which [astype(str)] writes as
    ["nan"], so no cell is the empty string. *)
Definition read_column (ids : list string) : Prop := ~ In "" ids.

(** The four gateway calls of the [try] block of [process_contract], in
    the order of the source. *)
Definition gateway_steps (contract_id : string) : list event :=
  [EvSearch contract_id; EvOpen contract_id;
   EvAccessDocuments contract_id; EvDownload contract_id].

(** The contracts whose processing was started: the search is the first
    gateway call of [process_contract]. *)
Fixpoint started (evs : list event) : list string :=
  match evs with
  | [] => []
  | EvSearch contract_id :: r => contract_id :: started r
  | _ :: r => started r
  end.

(** The number of visits of the home page. *)
Fixpoint home_visits (evs : list event) : nat :=
  match evs with
  | [] => O
  | EvNavigateHome :: r => S (home_visits r)
  | _ :: r => home_visits r
  end.

(** A gateway call made for one of the given contracts: a visit of the
    home page, or a step on one of them. *)
Definition gateway_event_of (ids : list string) (e : event) : Prop :=
  e = EvNavigateHome \/
  exists contract_id, In contract_id ids /\ In e (gateway_steps contract_id).


(** * Further definitions *)

(** The plan for a positive quantity, in one formula: the identifiers
    are taken after an offset, which is zero when the run restarts. *)
Definition plan_offset (last : option string) (ids : list string) : nat :=
  match last with
  | Some m => if truthy last && py_in m ids then S (py_index m ids) else O
  | None => O
  end.


(** ** [handle_document_errors] of [core/documents.py] *)

(** The values the handlers build: [None], a boolean or the response of
    [page.reload()], and tuples of those. *)
Inductive pyatom : Type :=
| PyNone
| PyBool (b : bool)
| PyResponse.

Inductive pyvalue : Type :=
| Atom (a : pyatom)
| Tuple (items : list pyatom).

(** Truth value of a Python value: [None], [False] and the empty tuple
    are false. *)
Definition py_truth (v : pyvalue) : bool :=
  match v with
  | Atom PyNone => false
  | Atom (PyBool b) => b
  | Atom PyResponse => true
  | Tuple [] => false
  | Tuple (_ :: _) => true
  end.

(** The two page calls of the handlers: [page.reload()], which returns a
    response or [None], and the click on "Tentar novamente". *)
Record recovery_ui : Type := {
  reload : res pyatom;
  retry_click : res unit
}.

(** The dictionary of handlers is keyed by three strings; each handler
    is a lambda whose body is a parenthesised expression: a tuple for
    ["TIMEOUT"] and ["DOWNLOAD_FAILED"], the plain [False] for
    ["NOT_FOUND"].  [time.sleep] returns [None]. *)
Definition handle_document_errors (u : recovery_ui) (error_type : string)
  : res pyvalue :=
  try_except
    (if String.eqb error_type "TIMEOUT" then
       (response <- reload u ;;
        Ret (Tuple [response; PyNone; PyBool true]))%res
     else if String.eqb error_type "NOT_FOUND" then
       Ret (Atom (PyBool false))
     else if String.eqb error_type "DOWNLOAD_FAILED" then
       (retry_click u ;;;
        Ret (Tuple [PyNone; PyNone; PyBool true]))%res
     else Ret (Atom (PyBool false)))
    (Ret (Atom (PyBool false))).

(** ** More sample sessions *)

(** The page of [smooth_page] after a login that the portal rejects: the
    element expected after the login never shows. *)
Definition rejected_login_page : Page :=
  fun _ =>
    let u := sample_ui (Ret tt) (Ret 1%nat) (Ret "docs.zip") (Ret 0%nat) in
    {| login_form := login_form u;
       btn_bqrtm_visible := btn_bqrtm_visible u;
       btn_bqrtm_click := btn_bqrtm_click u;
       post_login_visible := Ret false;
       login_ms := login_ms u;
       home_goto := home_goto u;
       home_ms := home_ms u;
       search_field := search_field u;
       search_ms := search_ms u;
       table_visible := table_visible u;
       link_count := link_count u;
       link_title_attr := link_title_attr u;
       link_inner_text := link_inner_text u;
       link_mid := link_mid u;
       link_click := link_click u;
       open_option_count := open_option_count u;
       open_option_click := open_option_click u;
       title_visible := title_visible u;
       docs_text_count := docs_text_count u;
       overview_text_count := overview_text_count u;
       open_ms := open_ms u;
       selected_tab_count := selected_tab_count u;
       tab_count := tab_count u;
       tab_click := tab_click u;
       actions_count := actions_count u;
       actions_click := actions_click u;
       menu_option_count := menu_option_count u;
       mymenu_option_count := mymenu_option_count u;
       docs_option_click := docs_option_click u;
       download_page_visible := download_page_visible u;
       access_ms := access_ms u;
       dl_page_visible := dl_page_visible u;
       checkbox_click := checkbox_click u;
       checkbox_input_click := checkbox_input_click u;
       expect_download := expect_download u;
       mkdir := mkdir u;
       save_as := save_as u;
       no_documents_count := no_documents_count u;
       download_ms := download_ms u |}.

(** A world whose report directory cannot be written. *)
Definition read_only_world : world :=
  {| now := 0; trace := []; excel_writable := false; saved_reports := [] |}.

(** A page that reloads, and whose retry link is missing. *)
Definition reloading_ui : recovery_ui :=
  {| reload := Ret PyResponse; retry_click := Raise |}.

(** The rows of the result table cannot be counted: the locator raises. *)
Definition broken_table_page : Page :=
  fun _ => sample_ui (Ret tt) Raise (Ret "docs.zip") (Ret 0%nat).

(** Events of the gateway functions that [process_contract] calls. *)
Definition contract_event (e : event) : Prop :=
  e <> EvLogin /\ e <> EvSaveReport /\ e <> EvBrowserClose.

(** [len(df)] for the rows whose status is neither [PROCESSED] nor
    [NO_FILES]. *)
Definition count_failures (df : list outcome) : Z :=
  Z.of_nat
    (length
       (filter (fun r => negb (String.eqb (Status r) "PROCESSED"
                               || String.eqb (Status r) "NO_FILES")) df)).

(** ** [format_duration] of [utils/time_utils.py] *)

(** [str(n)] for an integer. *)
Definition py_str_int (n : Z) : string :=
  NilZero.string_of_int (Z.to_int n).

(** The format [:02d]: the decimal digits, with a zero in front when
    there would be fewer than two characters.  A negative number has its
    sign and at least one digit, so it is never padded. *)
Definition format_02d (n : Z) : string :=
  let s := py_str_int n in
  if (String.length s <? 2)%nat then "0" ++ s else s.

(** [//] and [%] of Python round towards minus infinity, as [Z.div] and
    [Z.modulo] do for a positive divisor. *)
Definition format_duration (seconds : Z) : string :=
  format_02d (seconds / 3600) ++ ":"
  ++ format_02d ((seconds mod 3600) / 60) ++ ":"
  ++ format_02d (seconds mod 60).

(** Reading a field back as a decimal number. *)
Definition read_int (s : string) : option Z :=
  option_map Z.of_int (NilZero.int_of_string s).

(** ** [dividr.py] *)

(** [l[start:]] *)
Definition py_slice_from {A : Type} (l : list A) (start : Z) : list A :=
  skipn (Z.to_nat (slice_bound (Z.of_nat (length l)) start)) l.

(** [Series.unique()]: the distinct values, in order of first
    appearance.  The cells stand for the raw values of the column,
    distinct values being distinct strings. *)
Fixpoint unique_from (seen cells : list string) : list string :=
  match cells with
  | [] => []
  | x :: r =>
      if py_in x seen then unique_from seen r
      else x :: unique_from (x :: seen) r
  end.

Definition unique (cells : list string) : list string :=
  unique_from [] cells.

(** [df[mask]]: the rows where the mask is true, column by column. *)
Fixpoint select_rows {A : Type} (mask : list bool) (cells : list A)
  : list A :=
  match mask, cells with
  | b :: m, x :: r => if b then x :: select_rows m r else select_rows m r
  | _, _ => []
  end.

(** [series.isin(ids)] *)
Definition isin (cells ids : list string) : list bool :=
  map (fun c => py_in c ids) cells.

Definition filter_frame (mask : list bool) (df : list (string * list string))
  : list (string * list string) :=
  map (fun col => (fst col, select_rows mask (snd col))) df.

(** The script: it raises when the base cannot be read or has no column
    [Contract_ID], and otherwise builds the three frames it writes to
    [parte_1.xlsx], [parte_2.xlsx] and [parte_3.xlsx]. *)
Definition dividr (file : input_file)
  : res (list (string * list string) * list (string * list string)
         * list (string * list string)) :=
  match file with
  | NoFile => Raise
  | Unreadable => Raise
  | Sheet df =>
      match column "Contract_ID" df with
      | None => Raise
      | Some cells =>
          let unique_ids := unique cells in
          let n := Z.of_nat (length unique_ids) in
          let part_size := n / 3 in
          let df1_ids := py_slice unique_ids 0 part_size in
          let df2_ids := py_slice unique_ids part_size (2 * part_size) in
          let df3_ids := py_slice_from unique_ids (2 * part_size) in
          Ret (filter_frame (isin cells df1_ids) df,
               filter_frame (isin cells df2_ids) df,
               filter_frame (isin cells df3_ids) df)
      end
  end.

(** The title of the link was read: from its [title] attribute, or, when
    the attribute is missing or empty, from its inner text. *)
Definition title_read (u : ui) : Prop :=
  (exists t, link_title_attr u = Ret (Some t) /\ t <> "") \/
  ((link_title_attr u = Ret None \/ link_title_attr u = Ret (Some "")) /\
   exists s, link_inner_text u = Ret s).

(** The cells of a column at the rows whose identifier is in [ids], in
    the order of the base: [cells] is the identifier column, [col] any
    column of the same frame. *)
Definition kept_rows (ids cells col : list string) : list string :=
  map snd (filter (fun row => py_in (fst row) ids) (combine cells col)).

(** A part of the base: the same columns, in the same order, each
    reduced to the rows whose identifier is in [ids]. *)
Definition part_of (ids cells : list string)
  (df part : list (string * list string)) : Prop :=
  Forall2 (fun col kept =>
             fst kept = fst col /\
             snd kept = kept_rows ids cells (snd col)) df part.

(** * Properties *)

(** ** Batch planner *)

Section PlannerFacts.

Lemma firstn_clamped {A : Type} (n : nat) (l : list A) :
  firstn (Nat.min n (length l)) l = firstn n l.
Proof.
  destruct (Nat.le_gt_cases n (length l)) as [Hle | Hgt].
  - now rewrite Nat.min_l.
  - rewrite Nat.min_r by lia.
    rewrite firstn_all. symmetry. apply firstn_all2. lia.
Qed.

Lemma py_slice_prefix {A : Type} (l : list A) (quantity : Z) :
  0 < quantity -> py_slice l 0 quantity = firstn (Z.to_nat quantity) l.
Proof.
  intros Hq. unfold py_slice, slice_bound.
  assert (Hq' : (quantity <? 0) = false) by (apply Z.ltb_ge; lia).
  rewrite Hq'. change (0 <? 0) with false. cbv iota.
  rewrite (Z.min_l 0) by lia. change (Z.to_nat 0) with O. cbn [skipn].
  rewrite Z.sub_0_r, <- (firstn_clamped (Z.to_nat quantity)).
  f_equal. lia.
Qed.

Lemma py_slice_window {A : Type} (l : list A) (i : nat) (quantity : Z) :
  0 < quantity -> (i < length l)%nat ->
  py_slice l (Z.of_nat i + 1) (Z.of_nat i + 1 + quantity)
  = firstn (Z.to_nat quantity) (skipn (S i) l).
Proof.
  intros Hq Hi. unfold py_slice, slice_bound.
  assert (H1 : (Z.of_nat i + 1 <? 0) = false) by (apply Z.ltb_ge; lia).
  assert (H2 : (Z.of_nat i + 1 + quantity <? 0) = false)
    by (apply Z.ltb_ge; lia).
  rewrite H1, H2.
  rewrite (Z.min_l (Z.of_nat i + 1)) by lia.
  replace (Z.to_nat (Z.of_nat i + 1)) with (S i) by lia.
  rewrite <- (firstn_clamped (Z.to_nat quantity)).
  f_equal. rewrite length_skipn. lia.
Qed.

Lemma py_in_In (x : string) (l : list string) :
  py_in x l = true <-> In x l.
Proof.
  unfold py_in. rewrite existsb_exists. split.
  - intros (y & Hy & E). apply String.eqb_eq in E. now subst.
  - intros H. exists x. split; [assumption | apply String.eqb_refl].
Qed.

Lemma py_in_not_In (x : string) (l : list string) :
  py_in x l = false <-> ~ In x l.
Proof.
  rewrite <- py_in_In. destruct (py_in x l); split; congruence.
Qed.

(** [l.index(x)] is the first position that holds [x]. *)
Lemma py_index_first (x : string) (l : list string) :
  In x l ->
  (py_index x l < length l)%nat /\
  nth_error l (py_index x l) = Some x /\
  forall j, (j < py_index x l)%nat -> nth_error l j <> Some x.
Proof.
  induction l as [| y r IH]; intros Hin; [contradiction |].
  cbn [py_index]. destruct (String.eqb x y) eqn:E.
  - apply String.eqb_eq in E. subst y. cbn. repeat split; try lia.
  - apply String.eqb_neq in E.
    destruct Hin as [-> | Hin]; [congruence |].
    destruct (IH Hin) as (Hlt & Hnth & Hfirst).
    cbn [length nth_error]. repeat split; [lia | assumption |].
    intros [| j] Hj; cbn [nth_error].
    + congruence.
    + apply Hfirst. lia.
Qed.

Lemma truthy_false (last : option string) :
  truthy last = false <-> last = None \/ last = Some "".
Proof.
  destruct last as [s |]; cbn.
  - rewrite negb_false_iff, String.eqb_eq. split.
    + intros ->. now right.
    + intros [H | H]; congruence.
  - split; auto.
Qed.

End PlannerFacts.

(** The plan for every marker and every list, the empty string included:
    the guard [not last_processed_id] treats an empty marker as none. *)
Lemma plan_by_marker
  (cols : list (string * list string)) (ids : list string)
  (last : option string) (quantity : Z) :
  column "Contract_ID" cols = Some ids ->
  0 < quantity ->
  let plan := get_contracts_to_process last (Sheet cols) quantity in
  (last = None \/ last = Some "" \/
   (exists m, last = Some m /\ ~ In m ids) ->
   plan = firstn (Z.to_nat quantity) ids /\
   length plan = Nat.min (Z.to_nat quantity) (length ids)) /\
  (forall m, last = Some m -> m <> "" -> In m ids ->
   exists i,
     nth_error ids i = Some m /\
     (forall j, (j < i)%nat -> nth_error ids j <> Some m) /\
     plan = firstn (Z.to_nat quantity) (skipn (S i) ids) /\
     length plan = Nat.min (Z.to_nat quantity) (length ids - S i)).
Proof.
  intros Hcol Hq plan. subst plan. unfold get_contracts_to_process.
  rewrite Hcol. split.
  - intros Hcase.
    assert (Hguard :
      negb (truthy last)
      || negb (match last with Some l => py_in l ids | None => false end)
      = true).
    { destruct Hcase as [-> | [-> | (m & -> & Hm)]]; try reflexivity.
      apply py_in_not_In in Hm. rewrite Hm. apply orb_true_r. }
    rewrite Hguard, py_slice_prefix by assumption.
    split; [reflexivity | apply length_firstn].
  - intros m -> Hne Hin.
    destruct (py_index_first m ids Hin) as (Hlt & Hnth & Hfirst).
    exists (py_index m ids). repeat split; try assumption.
    + cbn [truthy]. apply String.eqb_neq in Hne. rewrite Hne.
      apply py_in_In in Hin. rewrite Hin. cbn [negb orb].
      now apply py_slice_window.
    + cbn [truthy]. apply String.eqb_neq in Hne. rewrite Hne.
      apply py_in_In in Hin. rewrite Hin. cbn [negb orb].
      rewrite py_slice_window by assumption.
      now rewrite length_firstn, length_skipn.
Qed.

(** C3: for every identifier list as [read_excel] and [astype(str)]
    deliver it, every optional marker and every positive quantity,
    [get_contracts_to_process] returns the first [quantity] identifiers
    when the marker is none or absent from the list, and otherwise the
    [quantity] identifiers that follow the first index of the marker,
    fewer if the list is exhausted, possibly none.  The length of the
    plan is the minimum of [quantity] and the number of identifiers that
    remain. *)
Theorem get_contracts_to_process_plan
  (cols : list (string * list string)) (ids : list string)
  (last : option string) (quantity : Z) :
  column "Contract_ID" cols = Some ids ->
  read_column ids ->
  0 < quantity ->
  let plan := get_contracts_to_process last (Sheet cols) quantity in
  (last = None \/ (exists m, last = Some m /\ ~ In m ids) ->
   plan = firstn (Z.to_nat quantity) ids /\
   length plan = Nat.min (Z.to_nat quantity) (length ids)) /\
  (forall m, last = Some m -> In m ids ->
   exists i,
     nth_error ids i = Some m /\
     (forall j, (j < i)%nat -> nth_error ids j <> Some m) /\
     plan = firstn (Z.to_nat quantity) (skipn (S i) ids) /\
     length plan = Nat.min (Z.to_nat quantity) (length ids - S i)).
Proof.
  intros Hcol Hread Hq plan.
  destruct (plan_by_marker cols ids last quantity Hcol Hq) as (Htop & Hnext).
  split.
  - intros [H | H]; apply Htop; auto.
  - intros m Hlast Hin. apply (Hnext m Hlast); [| exact Hin].
    intros ->. exact (Hread Hin).
Qed.

(** The example of the specification, through the theorem. *)
Lemma get_contracts_to_process_plan_witness :
  get_contracts_to_process (Some "C")
    (Sheet [("Contract_ID", ["A"; "B"; "C"; "D"; "E"])]) 2 = ["D"; "E"].
Proof.
  destruct (get_contracts_to_process_plan
              [("Contract_ID", ["A"; "B"; "C"; "D"; "E"])]
              ["A"; "B"; "C"; "D"; "E"] (Some "C") 2
              eq_refl) as [_ H].
  - unfold read_column. cbn. intuition discriminate.
  - reflexivity.
  - destruct (H "C" eq_refl) as (i & Hi & _ & Hplan & _).
    + cbn. tauto.
    + destruct i as [| [| [| i]]]; try discriminate Hi.
      * exact Hplan.
      * destruct i as [| [| i]]; try discriminate Hi.
        destruct i; discriminate Hi.
Defined.

(** ** Resume tracker *)

Section ResumeFacts.

Lemma nonempty_dirs_In (entries folders : list dir_entry) :
  nonempty_dirs entries = Ret folders ->
  forall d, In d folders <-> In d entries /\ nonempty_subdir d.
Proof.
  revert folders. induction entries as [| e r IH]; intros folders H d.
  - injection H as <-. cbn. tauto.
  - cbn [nonempty_dirs] in H. unfold nonempty_subdir in *.
    destruct (is_dir e) as [[|] |] eqn:Edir; cbn in H; try discriminate.
    + destruct (glob_any e) as [[|] |] eqn:Eglob; cbn in H;
        try discriminate;
        destruct (nonempty_dirs r) as [rest |] eqn:Er; cbn in H;
        try discriminate; injection H as <-;
        specialize (IH rest eq_refl d); cbn [In]; split.
      * intros [<- | Hd]; [auto | tauto].
      * intros ([<- | Hd] & Hne); [auto | tauto].
      * intros Hd. tauto.
      * intros ([<- | Hd] & Hne); [| tauto].
        destruct Hne; congruence.
    + destruct (nonempty_dirs r) as [rest |] eqn:Er; cbn in H;
        try discriminate; injection H as <-.
      specialize (IH rest eq_refl d). cbn [In]. split.
      * tauto.
      * intros ([<- | Hd] & Hne); [| tauto].
        destruct Hne; congruence.
Qed.

Lemma nonempty_dirs_raise (entries : list dir_entry) (d : dir_entry) :
  In d entries ->
  is_dir d = Raise \/ (is_dir d = Ret true /\ glob_any d = Raise) ->
  nonempty_dirs entries = Raise.
Proof.
  induction entries as [| e r IH]; intros Hin Herr; [contradiction |].
  cbn [nonempty_dirs]. destruct Hin as [-> | Hin].
  - destruct Herr as [-> | [-> ->]]; reflexivity.
  - rewrite (IH Hin Herr).
    destruct (is_dir e) as [[|] |]; cbn; try reflexivity.
    destruct (glob_any e) as [[|] |]; reflexivity.
Qed.

Lemma nonempty_dirs_total (entries : list dir_entry) :
  (forall d, In d entries ->
     is_dir d <> Raise /\ (is_dir d = Ret true -> glob_any d <> Raise)) ->
  exists folders, nonempty_dirs entries = Ret folders.
Proof.
  induction entries as [| e r IH]; intros Hok.
  - now exists [].
  - destruct IH as (rest & Hrest).
    { intros d Hd. apply Hok. now right. }
    destruct (Hok e (or_introl eq_refl)) as (Hdir & Hglob).
    cbn [nonempty_dirs]. rewrite Hrest.
    destruct (is_dir e) as [[|] |]; cbn; try congruence.
    + specialize (Hglob eq_refl).
      destruct (glob_any e) as [[|] |]; cbn; try congruence; eauto.
    + eauto.
Qed.

Lemma max_from_raise (rest : list dir_entry) :
  forall best key d,
    In d rest -> getmtime d = Raise -> max_from best key rest = Raise.
Proof.
  induction rest as [| e r IH]; intros best key d Hin Hd; [contradiction |].
  cbn [max_from]. destruct Hin as [-> | Hin].
  - now rewrite Hd.
  - destruct (getmtime e) as [t |]; cbn; [| reflexivity].
    destruct (key <? t); eapply IH; eassumption.
Qed.

(** The entry chosen by [max] has a key that no other one exceeds. *)
Lemma max_from_greatest (rest : list dir_entry) :
  forall best key,
    getmtime best = Ret key ->
    (forall d, In d rest -> exists t, getmtime d = Ret t) ->
    exists d t,
      max_from best key rest = Ret d /\
      In d (best :: rest) /\
      getmtime d = Ret t /\
      key <= t /\
      forall d' t', In d' rest -> getmtime d' = Ret t' -> t' <= t.
Proof.
  induction rest as [| e r IH]; intros best key Hbest Hall.
  - exists best, key. cbn. repeat split; auto; try lia; try contradiction.
  - destruct (Hall e (or_introl eq_refl)) as (te & Hte).
    cbn [max_from]. rewrite Hte. cbn [res_bind].
    assert (Hr : forall d, In d r -> exists t, getmtime d = Ret t)
      by (intros d Hd; apply Hall; now right).
    destruct (key <? te) eqn:Ecmp.
    + apply Z.ltb_lt in Ecmp.
      destruct (IH e te Hte Hr) as (d & t & Hmax & Hin & Hd & Hle & Hub).
      exists d, t. repeat split; auto; try lia.
      * destruct Hin as [<- | Hin]; cbn; auto.
      * intros d' t' [<- | Hd'] Ht'; [| eauto].
        rewrite Hte in Ht'. injection Ht' as <-. lia.
    + apply Z.ltb_ge in Ecmp.
      destruct (IH best key Hbest Hr)
        as (d & t & Hmax & Hin & Hd & Hle & Hub).
      exists d, t. repeat split; auto.
      * destruct Hin as [<- | Hin]; cbn; auto.
      * intros d' t' [<- | Hd'] Ht'; [| eauto].
        rewrite Hte in Ht'. injection Ht' as <-. lia.
Qed.

End ResumeFacts.

(** Once [exists()] has answered: [get_last_contract_id] returns none
    when the output root does not exist, when it holds no non-empty
    subdirectory, and when an I/O error occurs inside the [try];
    otherwise it returns the name of a non-empty subdirectory whose
    modification time no other non-empty subdirectory exceeds. *)
Lemma get_last_contract_id_resume (root : out_dir) (present : bool) :
  dir_exists root = Ret present ->
  (present = false -> get_last_contract_id root = Ret None) /\
  (forall entries,
     iterdir root = Ret entries ->
     (forall d, In d entries -> ~ nonempty_subdir d) ->
     get_last_contract_id root = Ret None) /\
  (io_error root -> get_last_contract_id root = Ret None) /\
  (forall entries,
     present = true ->
     iterdir root = Ret entries ->
     ~ io_error root ->
     (exists d, In d entries /\ nonempty_subdir d) ->
     exists d t,
       In d entries /\ nonempty_subdir d /\ getmtime d = Ret t /\
       get_last_contract_id root = Ret (Some (entry_name d)) /\
       forall d' t',
         In d' entries -> nonempty_subdir d' -> getmtime d' = Ret t' ->
         t' <= t).
Proof.
  intros Hpresent. unfold get_last_contract_id. rewrite Hpresent.
  cbn [res_bind]. repeat split.
  - intros ->. reflexivity.
  - intros entries Hit Hnone. destruct present; [| reflexivity].
    cbn [negb]. rewrite Hit. cbn [res_bind].
    destruct (nonempty_dirs entries) as [[| f fs] |] eqn:Ef; try reflexivity.
    exfalso. apply (Hnone f);
      apply (nonempty_dirs_In _ _ Ef f); now left.
  - intros Herr. destruct present; [| reflexivity]. cbn [negb].
    destruct Herr as [-> | (entries & d & Hit & Hin & Hd)]; [reflexivity |].
    rewrite Hit. cbn [res_bind].
    destruct (nonempty_dirs entries) as [[| f fs] |] eqn:Ef; try reflexivity.
    destruct Hd as [Hd | [Hd | (Hne & Hd)]].
    + rewrite (nonempty_dirs_raise entries d) in Ef by auto. discriminate.
    + rewrite (nonempty_dirs_raise entries d) in Ef by auto. discriminate.
    + assert (Hin' : In d (f :: fs))
        by (apply (nonempty_dirs_In _ _ Ef d); auto).
      cbn [res_bind max_by_mtime]. destruct Hin' as [E | Hin'].
      * now rewrite E, Hd.
      * destruct (getmtime f) as [tf |]; cbn; [| reflexivity].
        now rewrite (max_from_raise fs f tf d Hin' Hd).
  - intros entries Hex Hit Hok (d0 & Hin0 & Hne0).
    rewrite Hex. cbn [negb]. rewrite Hit. cbn [res_bind].
    destruct (nonempty_dirs_total entries) as (folders & Ef).
    { intros d Hd. split.
      - intros E. apply Hok. right. exists entries, d. unfold probe_error.
        tauto.
      - intros Edir E. apply Hok. right. exists entries, d.
        unfold probe_error. tauto. }
    rewrite Ef.
    pose proof (nonempty_dirs_In _ _ Ef) as Hmem.
    assert (Hkeys : forall d, In d folders -> exists t, getmtime d = Ret t).
    { intros d Hd. apply Hmem in Hd. destruct Hd as (Hd & Hne).
      destruct (getmtime d) as [t |] eqn:Et; [eauto |].
      exfalso. apply Hok. right. exists entries, d. unfold probe_error.
      tauto. }
    destruct folders as [| f fs].
    { exfalso. apply (Hmem d0). auto. }
    destruct (Hkeys f (or_introl eq_refl)) as (tf & Htf).
    destruct (max_from_greatest fs f tf Htf) as (d & t & Hmax & Hin & Hd & Hle & Hub).
    { intros d Hd. apply Hkeys. now right. }
    exists d, t. apply Hmem in Hin. destruct Hin as (Hin & Hne).
    repeat split; try assumption; try apply Hne.
    + cbn [res_bind max_by_mtime]. rewrite Htf. cbn [res_bind].
      rewrite Hmax. reflexivity.
    + intros d' t' Hd' Hne' Ht'.
      assert (Hf : In d' (f :: fs)) by (apply Hmem; auto).
      destruct Hf as [<- | Hf]; [| eauto].
      rewrite Htf in Ht'. injection Ht' as <-. exact Hle.
Qed.

(** ** Gateway functions *)

Section GatewayFacts.

Variable u : ui.

Lemma search_contract_body_returns :
  exists found, search_contract_body u = Ret found.
Proof.
  unfold search_contract_body. destruct (search_field u); cbn; eauto.
Qed.

Lemma navigate_to_homepage_body_returns :
  exists ok, navigate_to_homepage_body u = Ret ok.
Proof.
  unfold navigate_to_homepage_body. destruct (home_goto u); cbn; eauto.
Qed.

Lemma login_body_returns : exists ok, login_body u = Ret ok.
Proof.
  unfold login_body.
  destruct (login_form u); cbn; eauto.
  destruct (btn_bqrtm_visible u) as [[|] |]; cbn; eauto.
  - destruct (btn_bqrtm_click u); cbn; eauto.
    destruct (post_login_visible u) as [[|] |]; cbn; eauto.
  - destruct (post_login_visible u) as [[|] |]; cbn; eauto.
Qed.

(** The result vocabulary of [open_contract]. *)
Lemma open_contract_body_vocabulary :
  open_contract_body u = Ret "OPENED" \/
  open_contract_body u = Ret "NOT_FOUND" \/
  open_contract_body u = Ret "ERROR".
Proof.
  unfold open_contract_body.
  destruct (table_visible u); cbn; auto.
  destruct (link_count u) as [n |]; cbn; auto.
  destruct (nonzero n); cbn; auto.
  assert (Hrest :
    forall k : res string,
      (k = Ret "OPENED" \/ k = Ret "NOT_FOUND" \/ k = Raise) ->
      try_except k (Ret "ERROR") = Ret "OPENED" \/
      try_except k (Ret "ERROR") = Ret "NOT_FOUND" \/
      try_except k (Ret "ERROR") = Ret "ERROR").
  { intros k [-> | [-> | ->]]; cbn; auto. }
  apply Hrest.
  destruct (link_title_attr u) as [title |]; cbn; auto.
  destruct (truthy title); cbn;
    [| destruct (link_inner_text u); cbn; auto];
    (destruct (link_mid u) as [menu_id |]; cbn; auto;
     destruct (truthy menu_id); cbn; auto;
     destruct (link_click u); cbn; auto;
     destruct (open_option_count u) as [m |]; cbn; auto;
     destruct (nonzero m); cbn; auto;
     destruct (open_option_click u); cbn; auto;
     destruct (title_visible u); cbn; auto;
     destruct (docs_text_count u) as [d |]; cbn; auto;
     destruct (nonzero d); cbn; auto;
     destruct (overview_text_count u) as [o |]; cbn; auto;
     destruct (nonzero o); cbn; auto).
Qed.

Lemma access_contract_documents_body_returns :
  exists ok, access_contract_documents_body u = Ret ok.
Proof.
  unfold access_contract_documents_body.
  assert (Hrest : forall k : res bool,
            exists ok, try_except k (Ret false) = Ret ok).
  { intros [b |]; cbn; eauto. }
  apply Hrest.
Qed.

(** [download_contract_documents] answers ["DOWNLOADED"] with the saved
    path or ["NO_FILES"] without one, unless its probe raises. *)
Lemma download_contract_documents_body_vocabulary (contract_id : string) :
  (exists zip_path,
     download_contract_documents_body u contract_id
     = Ret ("DOWNLOADED", Some zip_path))
  \/ download_contract_documents_body u contract_id = Ret ("NO_FILES", None)
  \/ (download_contract_documents_body u contract_id = Raise /\
      no_documents_count u = Raise).
Proof.
  unfold download_contract_documents_body.
  assert (Hhandler :
    (c <- no_documents_count u;;
     (if nonzero c then Ret ("NO_FILES", @None path)
      else Ret ("NO_FILES", None)))%res = Ret ("NO_FILES", None) \/
    ((c <- no_documents_count u;;
      (if nonzero c then Ret ("NO_FILES", @None path)
       else Ret ("NO_FILES", None)))%res = Raise /\
     no_documents_count u = Raise)).
  { destruct (no_documents_count u) as [c |]; cbn; auto.
    destruct (nonzero c); auto. }
  destruct (dl_page_visible u); cbn; [| tauto].
  destruct (try_except (checkbox_click u) (checkbox_input_click u));
    cbn; [| tauto].
  destruct (expect_download u) as [name |]; cbn; [| tauto].
  destruct (mkdir u); cbn; [| tauto].
  destruct (save_as u); cbn; [| tauto].
  left. eexists. reflexivity.
Qed.

End GatewayFacts.

(** ** Contract processor *)

Section ProcessorFacts.

Variable page : Page.
Variable contract_id : string.

Lemma branch_sound (start_time : Z) (w : world) c l w' :
  branch page contract_id start_time w c l w' ->
  try_block page contract_id start_time w = (c, l, w').
Proof.
  intros H. unfold try_block.
  destruct H;
    repeat match goal with
           | E : _ = (_, _) |- _ =>
               rewrite E; clear E;
               cbn -[search_contract open_contract
                     access_contract_documents download_contract_documents]
           end; reflexivity.
Qed.

Ltac close_branch B :=
  do 3 eexists; split; [apply branch_sound; exact B | exact B].

Lemma branch_complete (start_time : Z) (w : world) :
  exists c l w',
    try_block page contract_id start_time w = (c, l, w') /\
    branch page contract_id start_time w c l w'.
Proof.
  destruct (search_contract page contract_id w) as [rs w1] eqn:Es.
  assert (Hs : exists found, rs = Ret found).
  { unfold search_contract in Es. injection Es as <- _.
    apply search_contract_body_returns. }
  destruct Hs as ([|] & ->).
  2:{ close_branch (BrSearchFailed _ _ start_time _ _ Es). }
  destruct (open_contract page contract_id w1) as [ro w2] eqn:Eo.
  assert (Ho : ro = Ret "OPENED" \/ ro = Ret "NOT_FOUND" \/ ro = Ret "ERROR").
  { unfold open_contract in Eo. injection Eo as <- _.
    apply open_contract_body_vocabulary. }
  destruct Ho as [-> | [-> | ->]].
  2:{ close_branch (BrNotFound _ _ start_time _ _ _ Es Eo). }
  2:{ close_branch (BrOpenFailed _ _ start_time _ _ _ Es Eo). }
  destruct (access_contract_documents page contract_id w2)
    as [ra w3] eqn:Ea.
  assert (Ha : exists ok, ra = Ret ok).
  { unfold access_contract_documents in Ea. injection Ea as <- _.
    apply access_contract_documents_body_returns. }
  destruct Ha as ([|] & ->).
  2:{ close_branch (BrAccessFailed _ _ start_time _ _ _ _ Es Eo Ea). }
  destruct (download_contract_documents page contract_id w3)
    as [rd w4] eqn:Ed.
  assert (Hd : (exists p, rd = Ret ("DOWNLOADED", Some p)) \/
               rd = Ret ("NO_FILES", None) \/ rd = Raise).
  { unfold download_contract_documents in Ed. injection Ed as <- _.
    destruct (download_contract_documents_body_vocabulary
                (page (trace w3)) contract_id)
      as [(p & Hp) | [Hp | (Hp & _)]]; eauto. }
  destruct Hd as [(p & ->) | [-> | ->]].
  - close_branch (BrDownloaded _ _ start_time _ _ _ _ _ _ Es Eo Ea Ed).
  - close_branch (BrNoFiles _ _ start_time _ _ _ _ _ Es Eo Ea Ed).
  - close_branch (BrDownloadFault _ _ start_time _ _ _ _ _ Es Eo Ea Ed).
Qed.

(** The [finally] block: whatever the [try] block did, the duration is
    read, the home page is visited, and the dictionary is returned. *)
Lemma process_contract_finally (ariba_url : string) (w : world) c l w1 :
  try_block page contract_id (now w) w = (c, l, w1) ->
  process_contract page contract_id ariba_url w
  = (Ret {| Contract_ID := contract_id;
            Status := final_status c l;
            Duration := Int (int_seconds (now w1 - now w));
            File_Path := option_map Str (file_path l) |},
     after_call EvNavigateHome (home_ms (page (trace w1))) w1).
Proof.
  intros H. unfold process_contract. rewrite H.
  unfold navigate_to_homepage.
  destruct (navigate_to_homepage_body_returns (page (trace w1)))
    as (ok & ->).
  reflexivity.
Qed.

(** What the gateway calls of a branch leave in the world: the history
    grows by calls other than the visit of the home page, and the
    report directory is untouched. *)
Lemma branch_world (start_time : Z) (w : world) c l w' :
  branch page contract_id start_time w c l w' ->
  (exists steps,
     trace w' = (trace w ++ steps)%list /\ ~ In EvNavigateHome steps) /\
  excel_writable w' = excel_writable w /\
  saved_reports w' = saved_reports w.
Proof.
  intros H.
  destruct H;
    unfold search_contract, open_contract, access_contract_documents,
      download_contract_documents in *;
    repeat match goal with
           | E : (_, _) = (_, _) |- _ => injection E as _ <-
           end;
    (split; [| split; reflexivity]);
    cbn [trace after_call]; repeat rewrite <- app_assoc; cbn [app];
    eexists; (split; [reflexivity |]);
    cbn [In]; intuition discriminate.
Qed.

Lemma branch_status (start_time : Z) (w : world) c l w' :
  branch page contract_id start_time w c l w' ->
  In (final_status c l) recorded_statuses.
Proof.
  intros H. destruct H; cbn; tauto.
Qed.

End ProcessorFacts.

Section ProcessorStepFacts.

Variable page : Page.
Variable contract_id : string.

(** How far a branch goes, and the status it leaves. *)
Lemma branch_steps (start_time : Z) (w : world) c l w' :
  branch page contract_id start_time w c l w' ->
  exists n,
    trace w' = (trace w ++ firstn n (gateway_steps contract_id))%list /\
    ((n = 1%nat /\ final_status c l = "ERROR_SEARCH_FAILED") \/
     (n = 2%nat /\ (final_status c l = "NOT_FOUND" \/
                    final_status c l = "ERROR_OPEN_FAILED")) \/
     (n = 3%nat /\ final_status c l = "ERROR_DOCUMENTS_ACCESS_FAILED") \/
     (n = 4%nat /\ (final_status c l = "PROCESSED" \/
                    final_status c l = "NO_FILES" \/
                    final_status c l = "ERROR_PROCESSED"))).
Proof.
  intros H.
  destruct H;
    unfold search_contract, open_contract, access_contract_documents,
      download_contract_documents in *;
    repeat match goal with
           | E : (_, _) = (_, _) |- _ => injection E as _ <-
           end;
    cbn [trace after_call final_status status];
    repeat rewrite <- app_assoc; cbn [app].
  - exists 1%nat. split; [reflexivity | tauto].
  - exists 2%nat. split; [reflexivity | tauto].
  - exists 2%nat. split; [reflexivity | tauto].
  - exists 3%nat. split; [reflexivity | tauto].
  - exists 4%nat. split; [reflexivity | tauto].
  - exists 4%nat. split; [reflexivity | tauto].
  - exists 4%nat. split; [reflexivity | tauto].
Qed.

End ProcessorStepFacts.

(** ** The claims on the contract processor *)

Section SummaryFacts.

Lemma count_status_app (s : string) (a b : list outcome) :
  count_status s (a ++ b) = count_status s a + count_status s b.
Proof.
  unfold count_status. rewrite filter_app, length_app. lia.
Qed.

Lemma count_status_one (s : string) (row : outcome) (b : list outcome) :
  count_status s (row :: b)
  = (if String.eqb (Status row) s then 1 else 0) + count_status s b.
Proof.
  unfold count_status. cbn [filter].
  destruct (String.eqb (Status row) s); cbn [length]; lia.
Qed.

End SummaryFacts.

(** C1, as the specification words it, on a page whose search field never
    shows: the search step fails and the recorded status is not
    [SEARCH_FAILED]. *)
Lemma search_failure_status_is_prefixed :
  fst (search_contract search_timeout_page "4600001" fresh_world) = Ret false /\
  exists r,
    fst (process_contract search_timeout_page "4600001" "https://ariba"
           fresh_world) = Ret r /\
    Status r = "ERROR_SEARCH_FAILED" /\
    Status r <> "SEARCH_FAILED".
Proof.
  split; [reflexivity |]. eexists. split; [reflexivity |].
  split; [reflexivity | discriminate].
Qed.

(** C1 (amended): when the search step of a contract fails,
    [process_contract] returns an outcome whose status is exactly
    [ERROR_SEARCH_FAILED] and whose file path is none; the remaining steps
    are skipped and the home page is still visited. *)
Theorem process_contract_search_failed
  (page : Page) (contract_id ariba_url : string) (w w1 : world) :
  search_contract page contract_id w = (Ret false, w1) ->
  exists r w2,
    process_contract page contract_id ariba_url w = (Ret r, w2) /\
    Contract_ID r = contract_id /\
    Status r = "ERROR_SEARCH_FAILED" /\
    File_Path r = None /\
    trace w2 = (trace w ++ [EvSearch contract_id; EvNavigateHome])%list.
Proof.
  intros Hs.
  pose proof (BrSearchFailed page contract_id (now w) w w1 Hs) as B.
  apply branch_sound in B.
  rewrite (process_contract_finally page contract_id ariba_url w _ _ _ B).
  do 2 eexists. split; [reflexivity |].
  unfold search_contract in Hs. injection Hs as _ <-.
  cbn. rewrite <- app_assoc. repeat split.
Qed.

Lemma process_contract_search_failed_witness :
  exists r w2,
    process_contract search_timeout_page "4600001" "https://ariba" fresh_world
    = (Ret r, w2) /\
    Contract_ID r = "4600001" /\
    Status r = "ERROR_SEARCH_FAILED" /\
    File_Path r = None /\
    trace w2 = (trace fresh_world ++ [EvSearch "4600001"; EvNavigateHome])%list.
Proof.
  apply (process_contract_search_failed search_timeout_page "4600001"
           "https://ariba" fresh_world
           (snd (search_contract search_timeout_page "4600001" fresh_world))).
  reflexivity.
Defined.

(** C2, as the specification words it, on a page whose result table has
    no row for the contract: [open_contract] answers [NOT_FOUND], the
    outcome says [NOT_FOUND], and the home page has been visited before
    [process_contract] returns. *)
Lemma not_found_branch_navigates_home :
  fst (open_contract no_row_page "4600001"
         (snd (search_contract no_row_page "4600001" fresh_world)))
  = Ret "NOT_FOUND" /\
  exists r w2,
    process_contract no_row_page "4600001" "https://ariba" fresh_world
    = (Ret r, w2) /\
    Status r = "NOT_FOUND" /\
    trace w2 = [EvSearch "4600001"; EvOpen "4600001"; EvNavigateHome] /\
    In EvNavigateHome (trace w2).
Proof.
  split; [reflexivity |]. do 2 eexists.
  split; [reflexivity |]. split; [reflexivity |]. split; [reflexivity |].
  cbn. tauto.
Qed.

(** C2 (amended): for every contract, [process_contract] visits the home
    page after every terminal branch, the [NOT_FOUND] branch included: the
    visit is the last gateway call of every run, it happens exactly once,
    and when [open_contract] answers [NOT_FOUND] the outcome still says
    [NOT_FOUND]. *)
Theorem process_contract_always_navigates_home
  (page : Page) (contract_id ariba_url : string) (w : world) :
  exists r w' steps,
    process_contract page contract_id ariba_url w = (Ret r, w') /\
    trace w' = (trace w ++ steps ++ [EvNavigateHome])%list /\
    ~ In EvNavigateHome steps /\
    (forall w1 w2,
       search_contract page contract_id w = (Ret true, w1) ->
       open_contract page contract_id w1 = (Ret "NOT_FOUND", w2) ->
       Status r = "NOT_FOUND" /\
       steps = [EvSearch contract_id; EvOpen contract_id]).
Proof.
  destruct (branch_complete page contract_id (now w) w)
    as (c & l & w1 & Htry & B).
  destruct (branch_world page contract_id (now w) w c l w1 B)
    as ((steps & Htrace & Hfree) & _ & _).
  rewrite (process_contract_finally page contract_id ariba_url w _ _ _ Htry).
  do 3 eexists. split; [reflexivity |].
  split; [| split; [exact Hfree |]].
  - cbn [trace after_call]. rewrite Htrace. now rewrite app_assoc.
  - intros v1 v2 Hs Ho.
    pose proof (BrNotFound page contract_id (now w) w v1 v2 Hs Ho) as B'.
    apply branch_sound in B'. rewrite B' in Htry.
    injection Htry as <- <- <-. split; [reflexivity |].
    unfold search_contract in Hs. unfold open_contract in Ho.
    injection Hs as _ <-. injection Ho as _ <-.
    cbn [trace after_call] in Htrace. rewrite <- app_assoc in Htrace.
    now apply app_inv_head in Htrace.
Qed.

(** C5, as the specification words it, on a page where the download
    never starts: access to the documents succeeded, the download failed
    for a reason other than missing files, and the recorded status is
    [NO_FILES], not [DOWNLOAD_FAILED]. *)
Lemma stalled_download_is_recorded_as_no_files :
  fst (access_contract_documents stalled_download_page "4600001"
         (snd (open_contract stalled_download_page "4600001"
                 (snd (search_contract stalled_download_page "4600001"
                         fresh_world)))))
  = Ret true /\
  expect_download
    (stalled_download_page
       [EvSearch "4600001"; EvOpen "4600001"; EvAccessDocuments "4600001"])
  = Raise /\
  no_documents_count
    (stalled_download_page
       [EvSearch "4600001"; EvOpen "4600001"; EvAccessDocuments "4600001"])
  = Ret 0%nat /\
  exists r,
    fst (process_contract stalled_download_page "4600001" "https://ariba"
           fresh_world) = Ret r /\
    Status r = "NO_FILES" /\
    Status r <> "DOWNLOAD_FAILED".
Proof.
  repeat (split; [reflexivity |]).
  eexists. split; [reflexivity |]. split; [reflexivity | discriminate].
Qed.

(** C5 (amended): for every contract where document access succeeded and
    the download step does not end in a saved archive (the download never
    starts, saving raises, ...), [download_contract_documents] answers
    [NO_FILES] and the recorded status is [NO_FILES], or it raises because
    its own probe for the no-documents text raised and the recorded status
    is [ERROR_PROCESSED]; the status is never [DOWNLOAD_FAILED], the file
    path is none, and the home page is visited afterwards. *)
Theorem process_contract_download_failed
  (page : Page) (contract_id ariba_url : string) (w w1 w2 w3 w4 : world)
  (d : res (string * option path)) :
  search_contract page contract_id w = (Ret true, w1) ->
  open_contract page contract_id w1 = (Ret "OPENED", w2) ->
  access_contract_documents page contract_id w2 = (Ret true, w3) ->
  download_contract_documents page contract_id w3 = (d, w4) ->
  (forall zip_path, d <> Ret ("DOWNLOADED", zip_path)) ->
  exists r w5,
    process_contract page contract_id ariba_url w = (Ret r, w5) /\
    ((d = Ret ("NO_FILES", None) /\ Status r = "NO_FILES") \/
     (d = Raise /\ no_documents_count (page (trace w3)) = Raise /\
      Status r = "ERROR_PROCESSED")) /\
    Status r <> "DOWNLOAD_FAILED" /\
    Status r <> "ERROR_DOWNLOAD_FAILED" /\
    File_Path r = None /\
    trace w5 = (trace w4 ++ [EvNavigateHome])%list.
Proof.
  intros Hs Ho Ha Hd Hfail.
  assert (Hvoc : d = Ret ("NO_FILES", None) \/
                 (d = Raise /\ no_documents_count (page (trace w3)) = Raise)).
  { pose proof Hd as Hd'. unfold download_contract_documents in Hd'.
    injection Hd' as Hbody _.
    destruct (download_contract_documents_body_vocabulary
                (page (trace w3)) contract_id) as [(p & Hp) | [Hp | Hp]].
    - exfalso. apply (Hfail (Some p)). congruence.
    - left. congruence.
    - right. destruct Hp as (Hp & Hprobe). split; congruence. }
  destruct Hvoc as [-> | (-> & Hprobe)].
  - pose proof (BrNoFiles page contract_id (now w) w _ _ _ _ Hs Ho Ha Hd) as B.
    apply branch_sound in B.
    rewrite (process_contract_finally page contract_id ariba_url w _ _ _ B).
    do 2 eexists. split; [reflexivity |]. cbn.
    repeat split; try discriminate. left. split; reflexivity.
  - pose proof (BrDownloadFault page contract_id (now w) w _ _ _ _
                  Hs Ho Ha Hd) as B.
    apply branch_sound in B.
    rewrite (process_contract_finally page contract_id ariba_url w _ _ _ B).
    do 2 eexists. split; [reflexivity |]. cbn.
    repeat split; try discriminate. right. repeat split. exact Hprobe.
Qed.

Lemma process_contract_download_failed_witness :
  exists r w5,
    process_contract stalled_download_page "4600001" "https://ariba"
      fresh_world = (Ret r, w5) /\
    Status r = "NO_FILES" /\ File_Path r = None.
Proof.
  pose (page := stalled_download_page).
  pose (w1 := snd (search_contract page "4600001" fresh_world)).
  pose (w2 := snd (open_contract page "4600001" w1)).
  pose (w3 := snd (access_contract_documents page "4600001" w2)).
  pose (w4 := snd (download_contract_documents page "4600001" w3)).
  destruct (process_contract_download_failed page "4600001" "https://ariba"
              fresh_world w1 w2 w3 w4 (Ret ("NO_FILES", None))
              eq_refl eq_refl eq_refl eq_refl)
    as (r & w5 & Hrun & Hstatus & _ & _ & Hpath & _).
  - intros zip_path. discriminate.
  - exists r, w5. split; [exact Hrun |]. split; [| exact Hpath].
    destruct Hstatus as [(_ & H) | (H & _)]; [exact H | discriminate H].
Defined.

(** C6: for every contract where [download_contract_documents] reports
    no files, the outcome has status [NO_FILES] and no file path, and in
    the summary a row with that status raises the count of contracts
    without documents by one and leaves the counts of successes and of
    failures unchanged. *)
Theorem process_contract_no_files
  (page : Page) (contract_id ariba_url : string) (w w1 w2 w3 w4 : world)
  (reported_path : option path) :
  search_contract page contract_id w = (Ret true, w1) ->
  open_contract page contract_id w1 = (Ret "OPENED", w2) ->
  access_contract_documents page contract_id w2 = (Ret true, w3) ->
  download_contract_documents page contract_id w3
  = (Ret ("NO_FILES", reported_path), w4) ->
  exists r w5,
    process_contract page contract_id ariba_url w = (Ret r, w5) /\
    Status r = "NO_FILES" /\
    File_Path r = None /\
    forall (row : outcome) (before after : list outcome)
           (start_time report : Z) (ws : world),
      Status row = Status r ->
      let s := generate_summary (before ++ row :: after) start_time report ws in
      let s0 := generate_summary (before ++ after) start_time report ws in
      error_count s = error_count s0 /\
      success_count s = success_count s0 /\
      no_files_count s = no_files_count s0 + 1 /\
      processed_count s
      = success_count s + no_files_count s + error_count s.
Proof.
  intros Hs Ho Ha Hd.
  assert (Hnone : reported_path = None).
  { pose proof Hd as Hd'. unfold download_contract_documents in Hd'.
    injection Hd' as Hbody _.
    destruct (download_contract_documents_body_vocabulary
                (page (trace w3)) contract_id)
      as [(p & Hp) | [Hp | (Hp & _)]]; congruence. }
  subst reported_path.
  pose proof (BrNoFiles page contract_id (now w) w _ _ _ _ Hs Ho Ha Hd) as B.
  apply branch_sound in B.
  rewrite (process_contract_finally page contract_id ariba_url w _ _ _ B).
  do 2 eexists. split; [reflexivity |]. cbn [Status File_Path final_status
    status file_path option_map].
  split; [reflexivity |]. split; [reflexivity |].
  intros row before after start_time report ws Hrow.
  cbn [generate_summary error_count success_count no_files_count
         processed_count].
  rewrite !count_status_app, !count_status_one, !length_app, Hrow.
  cbn [length String.eqb Ascii.eqb Bool.eqb].
  change (String.eqb "NO_FILES" "PROCESSED") with false.
  change (String.eqb "NO_FILES" "NO_FILES") with true.
  lia.
Qed.

Lemma process_contract_no_files_witness :
  exists r w5,
    process_contract no_documents_page "4600001" "https://ariba" fresh_world
    = (Ret r, w5) /\
    Status r = "NO_FILES" /\ File_Path r = None /\
    error_count
      (generate_summary [error_row "4599999"; r] 0 0 fresh_world) = 1.
Proof.
  pose (page := no_documents_page).
  pose (w1 := snd (search_contract page "4600001" fresh_world)).
  pose (w2 := snd (open_contract page "4600001" w1)).
  pose (w3 := snd (access_contract_documents page "4600001" w2)).
  pose (w4 := snd (download_contract_documents page "4600001" w3)).
  destruct (process_contract_no_files page "4600001" "https://ariba"
              fresh_world w1 w2 w3 w4 None
              eq_refl eq_refl eq_refl eq_refl)
    as (r & w5 & Hrun & Hstatus & Hpath & Hsum).
  exists r, w5. repeat (split; [assumption |]).
  destruct (Hsum r [error_row "4599999"] [] 0 0 fresh_world eq_refl)
    as (Herr & _).
  cbn [app] in Herr. rewrite Herr. reflexivity.
Defined.

(** C9, as the specification words it, on a page where every step
    succeeds at once and only the visit of the home page takes time, five
    seconds: five seconds pass between the start of the search and the
    return, and the recorded duration is zero. *)
Lemma duration_excludes_navigate_home :
  exists r w',
    process_contract smooth_page "4600001" "https://ariba" fresh_world
    = (Ret r, w') /\
    now w' - now fresh_world = 5000 /\
    Duration r = Int 0 /\
    Duration r <> Int (int_seconds (now w' - now fresh_world)).
Proof.
  do 2 eexists. split; [reflexivity |]. split; [reflexivity |].
  split; [reflexivity | discriminate].
Qed.

(** C9 (amended): for every contract, the recorded duration is the
    wall-clock time from the moment the search is attempted to the moment
    the [try] block is left, truncated to whole seconds; it is read before
    the home page is visited, so the time spent there is not included. *)
Theorem process_contract_duration
  (page : Page) (contract_id ariba_url : string) (w : world) :
  exists r c l w1 w' ok,
    process_contract page contract_id ariba_url w = (Ret r, w') /\
    try_block page contract_id (now w) w = (c, l, w1) /\
    navigate_to_homepage page ariba_url w1 = (Ret ok, w') /\
    Duration r = Int (int_seconds (now w1 - now w)) /\
    now w' = now w1 + home_ms (page (trace w1)).
Proof.
  destruct (try_block page contract_id (now w) w) as [[c l] w1] eqn:Htry.
  rewrite (process_contract_finally page contract_id ariba_url w _ _ _ Htry).
  destruct (navigate_to_homepage_body_returns (page (trace w1))) as (ok & Hok).
  eexists. exists c, l, w1. eexists. exists ok.
  split; [reflexivity |]. split; [reflexivity |].
  unfold navigate_to_homepage. rewrite Hok. repeat split.
Qed.

(** ** Batch runner *)

Section BatchFacts.

Variable processor : Page -> string -> string -> M outcome.
Variable controller : ProcessController.
Variable page : Page.
Variable URL_ARIBA : string.

Let loop := for_loop processor controller page URL_ARIBA.

(** Every row the loop adds is either the error row of a contract on
    which the processor raised, or the row of a returned outcome. *)
Lemma for_loop_rows (P : outcome -> Prop) :
  (forall contract_id w r w' elapsed,
     processor page contract_id URL_ARIBA w = (Ret r, w') ->
     P {| Contract_ID := contract_id; Status := Status r;
          Duration := Round2 elapsed; File_Path := File_Path r |}) ->
  (forall contract_id w w',
     processor page contract_id URL_ARIBA w = (Raise, w') ->
     P (error_row contract_id)) ->
  forall ids handled report w,
  exists added,
    fst (loop ids handled report w) = (report ++ added)%list /\
    Forall P added.
Proof.
  intros Hret Hraise. subst loop.
  induction ids as [| contract_id rest IH]; intros handled report w.
  - exists []. cbn. now rewrite app_nil_r.
  - cbn [for_loop]. destruct (should_stop controller handled).
    + exists []. cbn. now rewrite app_nil_r.
    + destruct (processor page contract_id URL_ARIBA w) as [[r |] w1] eqn:E.
      * edestruct IH as (added & -> & Hall).
        eexists. rewrite <- app_assoc. split; [reflexivity |].
        constructor; [| exact Hall]. eapply Hret. exact E.
      * edestruct IH as (added & -> & Hall).
        eexists. rewrite <- app_assoc. split; [reflexivity |].
        constructor; [| exact Hall]. eapply Hraise. exact E.
Qed.

(** When the flag is first read as set at the [k]-th reading from now,
    the loop handles exactly the next [k] identifiers, in order. *)
Lemma for_loop_until_stop :
  forall ids k handled report w,
    (k <= length ids)%nat ->
    (forall i, (i < k)%nat -> should_stop controller (handled + i) = false) ->
    ((k < length ids)%nat -> should_stop controller (handled + k) = true) ->
    exists added,
      fst (loop ids handled report w) = (report ++ added)%list /\
      map Contract_ID added = firstn k ids.
Proof.
  subst loop.
  induction ids as [| contract_id rest IH];
    intros k handled report w Hk Hrun Hstop.
  - exists []. cbn. rewrite app_nil_r. now rewrite firstn_nil.
  - cbn [for_loop]. destruct k as [| k].
    + rewrite Nat.add_0_r in Hstop. rewrite Hstop by (cbn; lia).
      exists []. cbn. now rewrite app_nil_r.
    + assert (H0 : should_stop controller handled = false).
      { rewrite <- (Nat.add_0_r handled). apply Hrun. lia. }
      rewrite H0.
      cbn [length] in Hk.
      assert (Hrun' : forall i, (i < k)%nat ->
                        should_stop controller (S handled + i) = false).
      { intros i Hi. replace (S handled + i)%nat with (handled + S i)%nat
          by lia. apply Hrun. lia. }
      assert (Hstop' : (k < length rest)%nat ->
                       should_stop controller (S handled + k) = true).
      { intros Hlt. replace (S handled + k)%nat with (handled + S k)%nat
          by lia. apply Hstop. cbn [length]. lia. }
      destruct (processor page contract_id URL_ARIBA w) as [[r |] w1];
        edestruct (IH k (S handled)) as (added & -> & Hids);
        try eassumption; try lia;
        eexists; rewrite <- app_assoc; (split; [reflexivity |]);
        cbn [app map firstn Contract_ID error_row]; now rewrite Hids.
Qed.

(** A processor that leaves the report directory alone lets the loop
    leave it alone. *)
Lemma for_loop_keeps_reports :
  (forall contract_id w r w',
     processor page contract_id URL_ARIBA w = (r, w') ->
     excel_writable w' = excel_writable w /\
     saved_reports w' = saved_reports w) ->
  forall ids handled report w,
    excel_writable (snd (loop ids handled report w)) = excel_writable w /\
    saved_reports (snd (loop ids handled report w)) = saved_reports w.
Proof.
  intros Hkeep. subst loop.
  induction ids as [| contract_id rest IH]; intros handled report w.
  - cbn. auto.
  - cbn [for_loop]. destruct (should_stop controller handled); [cbn; auto |].
    destruct (processor page contract_id URL_ARIBA w) as [[r |] w1] eqn:E;
      destruct (Hkeep _ _ _ _ E) as (<- & <-); apply IH.
Qed.

End BatchFacts.

Lemma process_contract_keeps_reports
  (page : Page) (contract_id ariba_url : string) (w : world) r w' :
  process_contract page contract_id ariba_url w = (r, w') ->
  excel_writable w' = excel_writable w /\ saved_reports w' = saved_reports w.
Proof.
  destruct (branch_complete page contract_id (now w) w)
    as (c & l & w1 & Htry & B).
  rewrite (process_contract_finally page contract_id ariba_url w _ _ _ Htry).
  intros H. injection H as _ <-.
  destruct (branch_world page contract_id (now w) w c l w1 B)
    as (_ & Hx & Hr).
  cbn [excel_writable saved_reports after_call]. auto.
Qed.

Section StopFacts.

Variable controller : ProcessController.
Variable page : Page.
Variable URL_ARIBA : string.

Lemma started_app (a b : list event) :
  started (a ++ b) = (started a ++ started b)%list.
Proof.
  induction a as [| e a IH]; [reflexivity |].
  destruct e; cbn; rewrite ?IH; reflexivity.
Qed.

Lemma home_visits_app (a b : list event) :
  home_visits (a ++ b) = (home_visits a + home_visits b)%nat.
Proof.
  induction a as [| e a IH]; [reflexivity |].
  destruct e; cbn; rewrite ?IH; reflexivity.
Qed.

Lemma gateway_event_of_more (ids ids' : list string) (e : event) :
  (forall x, In x ids -> In x ids') ->
  gateway_event_of ids e -> gateway_event_of ids' e.
Proof.
  intros Hsub [H | (cid & Hin & He)]; [now left |].
  right. exists cid. auto.
Qed.

(** One call of [process_contract]: the contract is started once, the
    home page is visited once, and every gateway call is a step on that
    contract. *)
Lemma process_contract_one_contract (contract_id : string) (w : world) r w' :
  process_contract page contract_id URL_ARIBA w = (r, w') ->
  exists evs,
    trace w' = (trace w ++ evs)%list /\
    started evs = [contract_id] /\
    home_visits evs = 1%nat /\
    Forall (gateway_event_of [contract_id]) evs.
Proof.
  destruct (branch_complete page contract_id (now w) w)
    as (c & l & w1 & Htry & B).
  rewrite (process_contract_finally page contract_id URL_ARIBA w _ _ _ Htry).
  intros H. injection H as _ <-.
  destruct (branch_steps page contract_id (now w) w c l w1 B)
    as (n & Htrace & Hn).
  exists (firstn n (gateway_steps contract_id) ++ [EvNavigateHome])%list.
  cbn [trace after_call]. rewrite Htrace, <- app_assoc.
  split; [reflexivity |].
  assert (Hcases : n = 1%nat \/ n = 2%nat \/ n = 3%nat \/ n = 4%nat)
    by tauto.
  split; [| split].
  - destruct Hcases as [-> | [-> | [-> | ->]]]; reflexivity.
  - destruct Hcases as [-> | [-> | [-> | ->]]]; reflexivity.
  - apply Forall_app. split.
    + apply Forall_forall. intros e He. right. exists contract_id.
      split; [now left |].
      rewrite <- (firstn_skipn n (gateway_steps contract_id)).
      apply in_or_app. now left.
    + constructor; [now left | constructor].
Qed.

(** When the flag is first read as set at the [k]-th reading from now,
    the gateway is used for the next [k] contracts and for no other. *)
Lemma for_loop_until_stop_events :
  forall ids k handled report w,
    (k <= length ids)%nat ->
    (forall i, (i < k)%nat -> should_stop controller (handled + i) = false) ->
    ((k < length ids)%nat -> should_stop controller (handled + k) = true) ->
    exists evs,
      trace (snd (for_loop process_contract controller page URL_ARIBA
                    ids handled report w))
      = (trace w ++ evs)%list /\
      started evs = firstn k ids /\
      home_visits evs = k /\
      Forall (gateway_event_of (firstn k ids)) evs.
Proof.
  induction ids as [| contract_id rest IH];
    intros k handled report w Hk Hrun Hstop.
  - exists []. cbn. rewrite app_nil_r, firstn_nil.
    cbn in Hk. repeat split; [lia | constructor].
  - cbn [for_loop]. destruct k as [| k].
    + rewrite Nat.add_0_r in Hstop. rewrite Hstop by (cbn; lia).
      exists []. cbn. rewrite app_nil_r. repeat split. constructor.
    + assert (H0 : should_stop controller handled = false).
      { rewrite <- (Nat.add_0_r handled). apply Hrun. lia. }
      rewrite H0. cbn [length] in Hk.
      assert (Hrun' : forall i, (i < k)%nat ->
                        should_stop controller (S handled + i) = false).
      { intros i Hi. replace (S handled + i)%nat with (handled + S i)%nat
          by lia. apply Hrun. lia. }
      assert (Hstop' : (k < length rest)%nat ->
                       should_stop controller (S handled + k) = true).
      { intros Hlt. replace (S handled + k)%nat with (handled + S k)%nat
          by lia. apply Hstop. cbn [length]. lia. }
      destruct (process_contract page contract_id URL_ARIBA w)
        as [r w1] eqn:E.
      destruct (process_contract_one_contract _ _ _ _ E)
        as (evs1 & H1 & Hs1 & Hh1 & Hf1).
      assert (Hnext : forall report',
        exists evs,
          trace (snd (for_loop process_contract controller page URL_ARIBA
                        rest (S handled) report' w1))
          = (trace w ++ evs)%list /\
          started evs = firstn (S k) (contract_id :: rest) /\
          home_visits evs = S k /\
          Forall (gateway_event_of (firstn (S k) (contract_id :: rest)))
            evs).
      { intros report'.
        destruct (IH k (S handled) report' w1) as (evs2 & H2 & Hs2 & Hh2 & Hf2);
          [lia | exact Hrun' | exact Hstop' |].
        exists (evs1 ++ evs2)%list.
        rewrite H2, H1, <- app_assoc. split; [reflexivity |].
        rewrite started_app, home_visits_app, Hs1, Hs2, Hh1, Hh2.
        split; [reflexivity |]. split; [reflexivity |].
        apply Forall_app. split.
        - eapply Forall_impl; [| exact Hf1]. intros e.
          apply gateway_event_of_more. cbn. tauto.
        - eapply Forall_impl; [| exact Hf2]. intros e.
          apply gateway_event_of_more. cbn. tauto. }
      destruct r as [r |]; apply Hnext.
Qed.

End StopFacts.

(** ** The claims on the batch runner *)

(** C7: when an exception escapes the processor for an identifier of the
    plan, the loop records for it an outcome with status [ERROR] and
    duration exactly zero and goes on with the next identifier; with no
    stop request, every later identifier of the plan gets its outcome. *)
Theorem for_loop_records_error
  (processor : Page -> string -> string -> M outcome)
  (controller : ProcessController) (page : Page) (URL_ARIBA : string)
  (contract_id : string) (rest : list string) (handled : nat)
  (report : list outcome) (w w1 : world) :
  should_stop controller handled = false ->
  processor page contract_id URL_ARIBA w = (Raise, w1) ->
  for_loop processor controller page URL_ARIBA
    (contract_id :: rest) handled report w
  = for_loop processor controller page URL_ARIBA
      rest (S handled) (report ++ [error_row contract_id]) w1 /\
  Contract_ID (error_row contract_id) = contract_id /\
  Status (error_row contract_id) = "ERROR" /\
  Duration (error_row contract_id) = Int 0 /\
  ((forall n, should_stop controller n = false) ->
   exists later,
     fst (for_loop processor controller page URL_ARIBA
            (contract_id :: rest) handled report w)
     = (report ++ error_row contract_id :: later)%list /\
     map Contract_ID later = rest).
Proof.
  intros Hgo Hraise.
  assert (Hstep :
    for_loop processor controller page URL_ARIBA
      (contract_id :: rest) handled report w
    = for_loop processor controller page URL_ARIBA
        rest (S handled) (report ++ [error_row contract_id]) w1).
  { cbn [for_loop]. now rewrite Hgo, Hraise. }
  split; [exact Hstep |]. repeat (split; [reflexivity |]).
  intros Hnever. rewrite Hstep.
  destruct (for_loop_until_stop processor controller page URL_ARIBA
              rest (length rest) (S handled)
              (report ++ [error_row contract_id]) w1)
    as (later & Hrows & Hids); auto; try lia.
  exists later. rewrite Hrows, <- app_assoc. split; [reflexivity |].
  now rewrite Hids, firstn_all.
Qed.

Lemma for_loop_records_error_witness :
  exists later,
    fst (for_loop broken_processor never_stop smooth_page "https://ariba"
           ["4600001"; "4600002"] 0 [] fresh_world)
    = ([] ++ error_row "4600001" :: later)%list /\
    map Contract_ID later = ["4600002"].
Proof.
  apply (for_loop_records_error broken_processor never_stop smooth_page
           "https://ariba" "4600001" ["4600002"] 0 [] fresh_world fresh_world
           eq_refl eq_refl).
  intros n. reflexivity.
Defined.

(** C4: when the stop flag is read as unset before each of the first [k]
    contracts and as set once the [k]-th has finished, with [k] smaller
    than the length of the plan, the loop produces exactly [k] outcomes,
    those of the first [k] identifiers, and no further contract is
    started: the gateway calls of the loop start exactly the first [k]
    contracts, visit the home page [k] times and are all made for those
    contracts.  The report that holds the [k] outcomes is then written,
    and the browser is closed. *)
Theorem run_session_stops_and_reports
  (controller : ProcessController) (page : Page)
  (ARIBA_LOGIN ARIBA_PASSWORD URL_ARIBA : string)
  (contract_ids : list string) (k : nat) (w w0 : world) :
  login page ARIBA_LOGIN ARIBA_PASSWORD URL_ARIBA w = (Ret true, w0) ->
  (1 <= k < length contract_ids)%nat ->
  (forall i, (i < k)%nat -> should_stop controller i = false) ->
  should_stop controller k = true ->
  excel_writable w = true ->
  exists rows w' evs,
    for_loop process_contract controller page URL_ARIBA contract_ids 0 [] w0
    = (rows, w') /\
    length rows = k /\
    map Contract_ID rows = firstn k contract_ids /\
    trace w' = (trace w0 ++ evs)%list /\
    started evs = firstn k contract_ids /\
    home_visits evs = k /\
    Forall (gateway_event_of (firstn k contract_ids)) evs /\
    exists w'',
      run_session process_contract controller page
        ARIBA_LOGIN ARIBA_PASSWORD URL_ARIBA contract_ids w
      = (Finished, w'') /\
      saved_reports w'' = (saved_reports w ++ [rows])%list /\
      trace w''
      = (trace w ++ [EvLogin] ++ evs
           ++ [EvSaveReport; EvBrowserClose])%list.
Proof.
  intros Hlogin Hk Hrun Hstop Hdisk.
  destruct (for_loop process_contract controller page URL_ARIBA
              contract_ids 0 [] w0) as [rows w1] eqn:Eloop.
  destruct (for_loop_until_stop process_contract controller page URL_ARIBA
              contract_ids k 0 [] w0) as (added & Hrows & Hids);
    auto; try lia.
  rewrite Eloop in Hrows. cbn [fst app] in Hrows. subst added.
  assert (Hlen : length rows = k).
  { rewrite <- (length_map Contract_ID), Hids, length_firstn. lia. }
  destruct (for_loop_keeps_reports process_contract controller page URL_ARIBA
              (fun cid => process_contract_keeps_reports page cid URL_ARIBA)
              contract_ids 0%nat [] w0) as (Hx & Hr).
  rewrite Eloop in Hx, Hr. cbn [snd] in Hx, Hr.
  destruct (for_loop_until_stop_events controller page URL_ARIBA
              contract_ids k 0%nat [] w0)
    as (evs & Ht & Hstarted & Hhome & Hevents); auto; try lia.
  rewrite Eloop in Ht. cbn [snd] in Ht.
  assert (Hw0 : trace w0 = (trace w ++ [EvLogin])%list /\
                excel_writable w0 = excel_writable w /\
                saved_reports w0 = saved_reports w).
  { unfold login in Hlogin. injection Hlogin as _ <-. cbn. auto. }
  destruct Hw0 as (Ht0 & Hx0 & Hr0).
  exists rows, w1, evs.
  repeat (split; [assumption || reflexivity |]).
  unfold run_session. rewrite Hlogin. cbn [negb]. rewrite Eloop.
  destruct rows as [| row rows']; [cbn in Hlen; lia |].
  unfold save_report. rewrite Hx, Hx0, Hdisk.
  eexists. split; [reflexivity |].
  cbn [saved_reports trace browser_close]. rewrite Hr, Hr0, Ht, Ht0.
  split; [reflexivity |]. rewrite <- !app_assoc. reflexivity.
Qed.

Lemma run_session_stops_and_reports_witness :
  exists rows w' evs,
    for_loop process_contract stop_after_first smooth_page "https://ariba"
      ["4600001"; "4600002"] 0 []
      (snd (login smooth_page "bot" "secret" "https://ariba" fresh_world))
    = (rows, w') /\
    length rows = 1%nat /\
    map Contract_ID rows = firstn 1 ["4600001"; "4600002"] /\
    trace w'
    = (trace (snd (login smooth_page "bot" "secret" "https://ariba"
                     fresh_world)) ++ evs)%list /\
    started evs = firstn 1 ["4600001"; "4600002"] /\
    home_visits evs = 1%nat /\
    Forall (gateway_event_of (firstn 1 ["4600001"; "4600002"])) evs /\
    exists w'',
      run_session process_contract stop_after_first smooth_page
        "bot" "secret" "https://ariba" ["4600001"; "4600002"] fresh_world
      = (Finished, w'') /\
      saved_reports w'' = (saved_reports fresh_world ++ [rows])%list /\
      trace w''
      = (trace fresh_world ++ [EvLogin] ++ evs
           ++ [EvSaveReport; EvBrowserClose])%list.
Proof.
  apply (run_session_stops_and_reports stop_after_first smooth_page
           "bot" "secret" "https://ariba" ["4600001"; "4600002"] 1
           fresh_world
           (snd (login smooth_page "bot" "secret" "https://ariba"
                   fresh_world))).
  - reflexivity.
  - cbn. lia.
  - intros i Hi. assert (i = 0%nat) as -> by lia. reflexivity.
  - reflexivity.
  - reflexivity.
Defined.

(** When the flag is already set before the first contract, nothing is
    processed and no report is written: the [finally] block of [main]
    saves only a report that has rows. *)
Remark run_session_stopped_at_once
  (controller : ProcessController) (page : Page)
  (ARIBA_LOGIN ARIBA_PASSWORD URL_ARIBA : string)
  (contract_ids : list string) (w w0 : world) :
  login page ARIBA_LOGIN ARIBA_PASSWORD URL_ARIBA w = (Ret true, w0) ->
  should_stop controller 0 = true ->
  exists w',
    run_session process_contract controller page
      ARIBA_LOGIN ARIBA_PASSWORD URL_ARIBA contract_ids w = (Finished, w') /\
    saved_reports w' = saved_reports w.
Proof.
  intros Hlogin Hstop. unfold run_session. rewrite Hlogin. cbn [negb].
  assert (Hloop :
    for_loop process_contract controller page URL_ARIBA contract_ids 0 [] w0
    = ([], w0)).
  { destruct contract_ids; cbn [for_loop]; [| rewrite Hstop]; reflexivity. }
  rewrite Hloop. eexists. split; [reflexivity |].
  unfold login in Hlogin. injection Hlogin as _ <-. reflexivity.
Qed.

(** C10: [process_contract] is total: whatever the page does, it returns
    an outcome for the contract and raises nothing; the status of the
    outcome is not empty and is one of the seven recorded statuses; when
    the [try] block is left by an exception the status is [ERROR_]
    followed by the status held at that moment.  Hence the loop of the
    batch runner, run on [process_contract], never adds a row with status
    [ERROR]: every row it adds carries a recorded status and a measured
    duration. *)
Theorem process_contract_total
  (page : Page) (contract_id ariba_url : string) (w : world) :
  (exists r w',
     process_contract page contract_id ariba_url w = (Ret r, w') /\
     Contract_ID r = contract_id /\
     Status r <> "" /\
     In (Status r) recorded_statuses /\
     (exists n, Duration r = Int n) /\
     (forall l w1,
        try_block page contract_id (now w) w = (Raised, l, w1) ->
        Status r = "ERROR_" ++ status l)) /\
  (forall controller contract_ids handled report,
   exists added,
     fst (for_loop process_contract controller page ariba_url
            contract_ids handled report w)
     = (report ++ added)%list /\
     Forall (fun row =>
               In (Status row) recorded_statuses /\
               Status row <> "ERROR" /\
               exists elapsed, Duration row = Round2 elapsed) added).
Proof.
  assert (Hvoc : forall s, In s recorded_statuses -> s <> "" /\ s <> "ERROR").
  { intros s Hs. cbn in Hs.
    repeat (destruct Hs as [<- | Hs]; [split; discriminate |]).
    contradiction. }
  split.
  - destruct (branch_complete page contract_id (now w) w)
      as (c & l & w1 & Htry & B).
    rewrite (process_contract_finally page contract_id ariba_url w _ _ _ Htry).
    do 2 eexists. split; [reflexivity |].
    pose proof (branch_status page contract_id (now w) w c l w1 B) as Hin.
    cbn [Contract_ID Status Duration]. split; [reflexivity |].
    split; [apply Hvoc, Hin |]. split; [exact Hin |].
    split; [eexists; reflexivity |].
    intros l' w1' Hraised. rewrite Hraised in Htry.
    injection Htry as <- <- <-. reflexivity.
  - intros controller contract_ids handled report.
    apply for_loop_rows.
    + intros cid v r v' elapsed Hrun. cbn [Status Duration].
      destruct (branch_complete page cid (now v) v)
        as (c & l & v1 & Htry & B).
      rewrite (process_contract_finally page cid ariba_url v _ _ _ Htry)
        in Hrun.
      injection Hrun as <- _.
      pose proof (branch_status page cid (now v) v c l v1 B) as Hin.
      cbn [Status]. split; [exact Hin |].
      split; [apply Hvoc, Hin | eexists; reflexivity].
    + intros cid v v' Hrun. exfalso.
      destruct (branch_complete page cid (now v) v)
        as (c & l & v1 & Htry & B).
      rewrite (process_contract_finally page cid ariba_url v _ _ _ Htry)
        in Hrun.
      discriminate Hrun.
Qed.

(** The resume tracker on an output root with two downloaded contracts:
    the more recent one is the marker. *)
Lemma get_last_contract_id_resume_witness :
  exists d t,
    nonempty_subdir d /\ getmtime d = Ret t /\
    get_last_contract_id sample_root = Ret (Some (entry_name d)) /\
    2000 <= t.
Proof.
  destruct (get_last_contract_id_resume sample_root true eq_refl)
    as (_ & _ & _ & H).
  edestruct H as (d & t & Hin & Hne & Ht & Hres & Hmax).
  - reflexivity.
  - reflexivity.
  - intros [Herr | (entries & e & Hit & He & Hp)]; [discriminate Herr |].
    injection Hit as <-. unfold probe_error, nonempty_subdir in Hp.
    cbn [In] in He.
    destruct He as [<- | [<- | [<- | []]]]; cbn in Hp;
      intuition discriminate.
  - eexists. split; [right; left; reflexivity |]. split; reflexivity.
  - exists d, t. repeat (split; [assumption |]).
    eapply Hmax; [right; left; reflexivity | split; reflexivity | reflexivity].
Defined.

(** C8: for an output root whose [exists()] check raises, an I/O error
    during the inspection, [get_last_contract_id] does not return none:
    the check stands before the [try], so the exception leaves the
    function, and [main] ends with exit status 1 before any session,
    whatever the input file holds. *)
Theorem get_last_contract_id_exists_raises :
  dir_exists unreachable_root = Raise /\
  get_last_contract_id unreachable_root = Raise /\
  get_last_contract_id unreachable_root <> Ret None /\
  main process_contract never_stop smooth_page "bot" "secret" "https://ariba"
    unreachable_root (Sheet [("Contract_ID", ["4600001"; "4600002"])]) 10
    fresh_world
  = (SysExit1, fresh_world).
Proof.
  repeat split. discriminate.
Qed.

(** The same for every output root: the result is an exception exactly
    when [exists()] raises. *)
Lemma get_last_contract_id_raises_iff (root : out_dir) :
  get_last_contract_id root = Raise <-> dir_exists root = Raise.
Proof.
  unfold get_last_contract_id. split.
  - destruct (dir_exists root) as [[|] |]; cbn [res_bind negb];
      [| discriminate | reflexivity].
    destruct (res_bind (iterdir root) _); discriminate.
  - intros ->. reflexivity.
Qed.


(** * Further properties *)

(** ** Batch planner: slices, resumption and the empty plan *)

Section SliceFacts.

Context {A : Type}.

(** A slice is [firstn] of [skipn], whatever the bounds. *)
Lemma py_slice_shape (l : list A) (start stop : Z) :
  exists k,
    py_slice l start stop
    = firstn k (skipn (Z.to_nat (slice_bound (Z.of_nat (length l)) start)) l).
Proof.
  unfold py_slice. eexists. reflexivity.
Qed.

Lemma slice_bound_range (len i : Z) :
  0 <= len -> 0 <= slice_bound len i <= len.
Proof.
  intros Hlen. unfold slice_bound. destruct (i <? 0) eqn:E.
  - apply Z.ltb_lt in E. lia.
  - apply Z.ltb_ge in E. lia.
Qed.

Lemma firstn_twice (n m : nat) (l : list A) :
  (firstn n l ++ firstn m (skipn n l))%list = firstn (n + m) l.
Proof.
  revert l. induction n as [| n IH]; intros l.
  - reflexivity.
  - destruct l as [| x l]; cbn.
    + now rewrite firstn_nil.
    + now rewrite IH.
Qed.

Lemma skipn_past_middle (l1 : list A) (x : A) (l2 : list A) :
  skipn (S (length l1)) (l1 ++ x :: l2) = l2.
Proof.
  induction l1 as [| y l1 IH]; [reflexivity | exact IH].
Qed.

Lemma in_firstn_inv (n : nat) (l : list A) (x : A) :
  In x (firstn n l) -> In x l.
Proof.
  intros H. rewrite <- (firstn_skipn n l). apply in_or_app. now left.
Qed.

Lemma in_skipn_inv (n : nat) (l : list A) (x : A) :
  In x (skipn n l) -> exists j, nth_error l (n + j) = Some x.
Proof.
  intros H. apply In_nth_error in H. destruct H as (j & Hj).
  exists j. now rewrite <- nth_error_skipn.
Qed.

End SliceFacts.

Section PlannerResumeFacts.

(** Without duplicates, [index] finds the position an element is at. *)
Lemma py_index_NoDup (l : list string) :
  NoDup l ->
  forall i x, nth_error l i = Some x -> py_index x l = i.
Proof.
  induction 1 as [| y r Hy Hr IH]; intros i x Hi.
  - destruct i; discriminate.
  - destruct i as [| i]; cbn in Hi |- *.
    + injection Hi as ->. now rewrite String.eqb_refl.
    + destruct (String.eqb x y) eqn:E.
      * apply String.eqb_eq in E. subst y.
        exfalso. apply Hy. eapply nth_error_In. eassumption.
      * f_equal. now apply IH.
Qed.

Lemma plan_by_offset
  (cols : list (string * list string)) (ids : list string)
  (last : option string) (quantity : Z) :
  column "Contract_ID" cols = Some ids ->
  0 < quantity ->
  get_contracts_to_process last (Sheet cols) quantity
  = firstn (Z.to_nat quantity) (skipn (plan_offset last ids) ids).
Proof.
  intros Hcol Hq. unfold get_contracts_to_process, plan_offset.
  rewrite Hcol. destruct last as [m |]; cbn [truthy negb orb andb].
  - destruct (negb (String.eqb m "")) eqn:Em; cbn [negb orb andb].
    + destruct (py_in m ids) eqn:Ein; cbn [negb].
      * apply py_in_In in Ein.
        destruct (py_index_first m ids Ein) as (Hlt & _).
        now apply py_slice_window.
      * now apply py_slice_prefix.
    + now apply py_slice_prefix.
  - now apply py_slice_prefix.
Qed.

End PlannerResumeFacts.

(** X1: whatever the marker and the quantity, of either sign, the plan
    is a run of consecutive identifiers of the list, in list order, and
    for a quantity that is not negative it has at most [quantity]
    entries, so none for quantity zero. *)
Theorem get_contracts_to_process_segment
  (cols : list (string * list string)) (ids : list string)
  (last : option string) (quantity : Z) :
  column "Contract_ID" cols = Some ids ->
  (exists before after,
     ids = (before ++ get_contracts_to_process last (Sheet cols) quantity
              ++ after)%list) /\
  (0 <= quantity ->
   Z.of_nat (length (get_contracts_to_process last (Sheet cols) quantity))
   <= quantity).
Proof.
  intros Hcol. unfold get_contracts_to_process. rewrite Hcol.
  assert (Hseg : forall a b,
            exists before after,
              ids = (before ++ py_slice ids a b ++ after)%list).
  { intros a b. unfold py_slice.
    set (m := Z.to_nat (slice_bound (Z.of_nat (length ids)) a)).
    set (k := Z.to_nat _).
    exists (firstn m ids), (skipn k (skipn m ids)).
    now rewrite firstn_skipn, firstn_skipn. }
  assert (Hlen : forall a, 0 <= a -> 0 <= quantity ->
            Z.of_nat (length (py_slice ids a (a + quantity))) <= quantity).
  { intros a Ha Hq. unfold py_slice. rewrite length_firstn.
    unfold slice_bound.
    destruct (a <? 0) eqn:Ea; [apply Z.ltb_lt in Ea; lia |].
    destruct (a + quantity <? 0) eqn:Eb; [apply Z.ltb_lt in Eb; lia |].
    lia. }
  destruct (negb (truthy last)
            || negb (match last with
                     | Some l => py_in l ids
                     | None => false
                     end)).
  - split; [apply Hseg |]. intros Hq. apply (Hlen 0); lia.
  - destruct last as [m |].
    + split; [apply Hseg |]. intros Hq. apply Hlen; lia.
    + split; [| cbn; lia]. exists [], ids. reflexivity.
Qed.

Lemma get_contracts_to_process_segment_witness :
  (exists before after,
     ["A"; "B"; "C"; "D"]
     = (before
        ++ get_contracts_to_process (Some "B")
             (Sheet [("Contract_ID", ["A"; "B"; "C"; "D"])]) (-1)
        ++ after)%list) /\
  (0 <= 0 ->
   Z.of_nat (length (get_contracts_to_process (Some "B")
                       (Sheet [("Contract_ID", ["A"; "B"; "C"; "D"])]) 0))
   <= 0).
Proof.
  split.
  - apply (get_contracts_to_process_segment
             [("Contract_ID", ["A"; "B"; "C"; "D"])] ["A"; "B"; "C"; "D"]
             (Some "B") (-1) eq_refl).
  - apply (get_contracts_to_process_segment
             [("Contract_ID", ["A"; "B"; "C"; "D"])] ["A"; "B"; "C"; "D"]
             (Some "B") 0 eq_refl).
Defined.

(** X2: a negative quantity does not give an empty plan.  When the run
    starts from the top (marker none, empty or absent), the plan is the
    whole list without its last [-quantity] identifiers. *)
Theorem get_contracts_to_process_negative_quantity
  (cols : list (string * list string)) (ids : list string)
  (last : option string) (quantity : Z) :
  column "Contract_ID" cols = Some ids ->
  quantity < 0 ->
  last = None \/ last = Some "" \/ (exists m, last = Some m /\ ~ In m ids) ->
  get_contracts_to_process last (Sheet cols) quantity
  = firstn (length ids - Z.to_nat (- quantity)) ids.
Proof.
  intros Hcol Hq Hcase. unfold get_contracts_to_process. rewrite Hcol.
  assert (Hguard :
    negb (truthy last)
    || negb (match last with Some l => py_in l ids | None => false end)
    = true).
  { destruct Hcase as [-> | [-> | (m & -> & Hm)]]; try reflexivity.
    apply py_in_not_In in Hm. rewrite Hm. apply orb_true_r. }
  rewrite Hguard. unfold py_slice, slice_bound.
  change (0 <? 0) with false. cbv iota.
  apply Z.ltb_lt in Hq. rewrite Hq. apply Z.ltb_lt in Hq.
  rewrite (Z.min_l 0) by lia. change (Z.to_nat 0) with O. cbn [skipn].
  f_equal. lia.
Qed.

Lemma get_contracts_to_process_negative_quantity_witness :
  get_contracts_to_process None
    (Sheet [("Contract_ID", ["A"; "B"; "C"; "D"])]) (-1)
  = firstn (length ["A"; "B"; "C"; "D"] - Z.to_nat (- (-1)))
      ["A"; "B"; "C"; "D"].
Proof.
  apply (get_contracts_to_process_negative_quantity
           [("Contract_ID", ["A"; "B"; "C"; "D"])] ["A"; "B"; "C"; "D"]
           None (-1) eq_refl).
  - reflexivity.
  - now left.
Defined.

(** X3: in a list without duplicates, a marker that is present and not
    empty is never planned again, nor is anything before it: every
    identifier of the plan sits strictly after the marker, for every
    quantity. *)
Theorem get_contracts_to_process_after_marker
  (cols : list (string * list string)) (ids : list string)
  (m : string) (quantity : Z) :
  column "Contract_ID" cols = Some ids ->
  NoDup ids -> m <> "" -> In m ids ->
  forall x,
    In x (get_contracts_to_process (Some m) (Sheet cols) quantity) ->
    x <> m /\ (py_index m ids < py_index x ids)%nat.
Proof.
  intros Hcol Hnd Hne Hin x Hx.
  unfold get_contracts_to_process in Hx. rewrite Hcol in Hx.
  cbn [truthy] in Hx. apply String.eqb_neq in Hne. rewrite Hne in Hx.
  pose proof Hin as Hin'. apply py_in_In in Hin'. rewrite Hin' in Hx.
  cbn [negb orb] in Hx.
  destruct (py_index_first m ids Hin) as (Hlt & Hnth & _).
  destruct (py_slice_shape ids (Z.of_nat (py_index m ids) + 1)
              (Z.of_nat (py_index m ids) + 1 + quantity)) as (k & Hshape).
  rewrite Hshape in Hx. clear Hshape.
  unfold slice_bound in Hx.
  assert (E : (Z.of_nat (py_index m ids) + 1 <? 0) = false)
    by (apply Z.ltb_ge; lia).
  rewrite E in Hx. rewrite Z.min_l in Hx by lia.
  replace (Z.to_nat (Z.of_nat (py_index m ids) + 1))
    with (S (py_index m ids)) in Hx by lia.
  apply in_firstn_inv in Hx. apply in_skipn_inv in Hx. destruct Hx as (j & Hj).
  rewrite (py_index_NoDup ids Hnd _ _ Hj).
  split; [| lia].
  intros ->. pose proof (py_index_NoDup ids Hnd _ _ Hj) as Hidx. lia.
Qed.

Lemma get_contracts_to_process_after_marker_witness :
  "C" <> "B" /\
  (py_index "B" ["A"; "B"; "C"; "D"] < py_index "C" ["A"; "B"; "C"; "D"])%nat.
Proof.
  apply (get_contracts_to_process_after_marker
           [("Contract_ID", ["A"; "B"; "C"; "D"])] ["A"; "B"; "C"; "D"]
           "B" 2 eq_refl).
  - repeat constructor; cbn; intuition discriminate.
  - discriminate.
  - cbn. tauto.
  - vm_compute. tauto.
Defined.

(** X4: resuming continues where the batch ended.  In a list without
    duplicates and without the empty identifier, a batch of positive
    quantity followed by a batch that takes the last identifier of the
    first as its marker gives the same identifiers as one batch of twice
    the quantity. *)
Theorem get_contracts_to_process_resume
  (cols : list (string * list string)) (ids : list string)
  (last : option string) (quantity : Z) :
  column "Contract_ID" cols = Some ids ->
  NoDup ids -> ~ In "" ids -> 0 < quantity ->
  get_contracts_to_process last (Sheet cols) quantity <> [] ->
  (get_contracts_to_process last (Sheet cols) quantity
   ++ get_contracts_to_process
        (Some (List.last
                 (get_contracts_to_process last (Sheet cols) quantity) ""))
        (Sheet cols) quantity)%list
  = get_contracts_to_process last (Sheet cols) (2 * quantity).
Proof.
  intros Hcol Hnd Hempty Hq Hplan.
  rewrite (plan_by_offset cols ids last (2 * quantity)) by (auto; lia).
  rewrite (plan_by_offset cols ids last quantity) in * by auto.
  set (a := plan_offset last ids) in *.
  set (q := Z.to_nat quantity) in *.
  replace (Z.to_nat (2 * quantity)) with (q + q)%nat by lia.
  set (tail := skipn a ids) in *.
  set (plan1 := firstn q tail) in *.
  destruct (exists_last Hplan) as (body & x & Hlast).
  rewrite Hlast at 2. rewrite last_last.
  assert (Hids : ids = ((firstn a ids ++ body) ++ x :: skipn q tail)%list).
  { rewrite <- app_assoc.
    change (x :: skipn q tail) with ([x] ++ skipn q tail)%list.
    rewrite (app_assoc body), <- Hlast. subst plan1.
    rewrite firstn_skipn. subst tail. now rewrite firstn_skipn. }
  assert (Hx : In x ids).
  { rewrite Hids. apply in_or_app. right. now left. }
  assert (Hpos : nth_error ids (length (firstn a ids ++ body)) = Some x).
  { rewrite Hids at 1. rewrite nth_error_app2 by lia.
    now rewrite Nat.sub_diag. }
  rewrite (plan_by_offset cols ids (Some x) quantity) by auto.
  unfold plan_offset. cbn [truthy].
  assert (Hne : String.eqb x "" = false).
  { apply String.eqb_neq. intros ->. contradiction. }
  rewrite Hne. apply py_in_In in Hx. rewrite Hx. cbn [negb andb].
  rewrite (py_index_NoDup ids Hnd _ _ Hpos).
  assert (Hskip : skipn (S (length (firstn a ids ++ body))) ids
                  = skipn q tail).
  { etransitivity;
      [| apply (skipn_past_middle (firstn a ids ++ body) x (skipn q tail))].
    f_equal. exact Hids. }
  fold q. rewrite Hskip. subst plan1. apply firstn_twice.
Qed.

Lemma get_contracts_to_process_resume_witness :
  (get_contracts_to_process (Some "A")
     (Sheet [("Contract_ID", ["A"; "B"; "C"; "D"; "E"])]) 2
   ++ get_contracts_to_process
        (Some (List.last
                 (get_contracts_to_process (Some "A")
                    (Sheet [("Contract_ID", ["A"; "B"; "C"; "D"; "E"])]) 2)
                 ""))
        (Sheet [("Contract_ID", ["A"; "B"; "C"; "D"; "E"])]) 2)%list
  = get_contracts_to_process (Some "A")
      (Sheet [("Contract_ID", ["A"; "B"; "C"; "D"; "E"])]) (2 * 2).
Proof.
  apply (get_contracts_to_process_resume
           [("Contract_ID", ["A"; "B"; "C"; "D"; "E"])]
           ["A"; "B"; "C"; "D"; "E"] (Some "A") 2 eq_refl).
  - repeat constructor; cbn; intuition discriminate.
  - cbn. intuition discriminate.
  - reflexivity.
  - discriminate.
Defined.

(** ** Gateway functions: when they succeed *)

(** Case analysis on the calls a hypothesis still depends on. *)
Ltac split_calls H :=
  repeat (match type of H with
          | context [if ?b then _ else _] =>
              destruct b eqn:?; cbn [negb res_bind try_except] in H
          | context [res_bind (res_bind ?r _) _] =>
              destruct r eqn:?; cbn [res_bind try_except] in H
          | context [res_bind (try_except ?r _) _] =>
              destruct r eqn:?; cbn [res_bind try_except] in H
          | context [try_except (res_bind ?r _) _] =>
              destruct r eqn:?; cbn [res_bind try_except] in H
          | context [res_bind ?r _] =>
              destruct r eqn:?; cbn [res_bind try_except] in H
          | context [try_except ?r _] =>
              destruct r eqn:?; cbn [res_bind try_except] in H
          end; try discriminate H);
  repeat match goal with
         | x : unit |- _ => destruct x
         | E : negb _ = true |- _ => apply negb_true_iff in E
         | E : negb _ = false |- _ => apply negb_false_iff in E
         end;
  subst.

Lemma nonzero_true (n : nat) : nonzero n = true -> exists k, n = S k.
Proof.
  destruct n; [discriminate | eauto].
Qed.

Lemma truthy_true (s : option string) :
  truthy s = true -> exists id, s = Some id /\ id <> "".
Proof.
  destruct s as [id |]; [| discriminate]. cbn. intros H.
  exists id. split; [reflexivity |].
  apply negb_true_iff in H. now apply String.eqb_neq.
Qed.

(** X5: [login] raises nothing, and it answers true exactly when the
    form is submitted without an exception, the extra button is either
    not shown or clicked without an exception, and the element expected
    after the login is visible. *)
Theorem login_succeeds_iff
  (page : Page) (username password url : string) (w : world) :
  (exists ok, fst (login page username password url w) = Ret ok) /\
  (fst (login page username password url w) = Ret true <->
   login_form (page (trace w)) = Ret tt /\
   (btn_bqrtm_visible (page (trace w)) = Ret false \/
    (btn_bqrtm_visible (page (trace w)) = Ret true /\
     btn_bqrtm_click (page (trace w)) = Ret tt)) /\
   post_login_visible (page (trace w)) = Ret true).
Proof.
  cbn [login fst]. set (u := page (trace w)).
  split; [apply login_body_returns |]. unfold login_body. split.
  - intros H. split_calls H; auto.
  - intros (Hform & Hbtn & Hpost). rewrite Hform, Hpost.
    destruct Hbtn as [-> | (-> & ->)]; reflexivity.
Qed.

(** X6: [open_contract] answers ["OPENED"] only if the result table
    showed, a link for the contract was found, the link carries a menu
    identifier that is not empty, the link and the "Abrir" entry of its
    menu were clicked, and the contract showed: by its title, or else by
    the text "Documentos" or "Visão Geral". *)
Theorem open_contract_opened_only_if
  (page : Page) (contract_id : string) (w : world) :
  fst (open_contract page contract_id w) = Ret "OPENED" ->
  table_visible (page (trace w)) = Ret tt /\
  (exists n, link_count (page (trace w)) = Ret (S n)) /\
  (exists id, link_mid (page (trace w)) = Ret (Some id) /\ id <> "") /\
  link_click (page (trace w)) = Ret tt /\
  (exists m, open_option_count (page (trace w)) = Ret (S m)) /\
  open_option_click (page (trace w)) = Ret tt /\
  (title_visible (page (trace w)) = Ret tt \/
   (title_visible (page (trace w)) = Raise /\
    ((exists d, docs_text_count (page (trace w)) = Ret (S d)) \/
     (docs_text_count (page (trace w)) = Ret 0%nat /\
      exists o, overview_text_count (page (trace w)) = Ret (S o))))).
Proof.
  cbn [open_contract fst]. set (u := page (trace w)).
  unfold open_contract_body. intros H.
  split_calls H;
    repeat match goal with
           | E : nonzero ?n = true |- _ =>
               apply nonzero_true in E; destruct E as (? & ->)
           | E : nonzero ?n = false |- _ =>
               destruct n; [clear E | discriminate E]
           | E : truthy ?s = true, L : link_mid u = Ret ?s |- _ =>
               apply truthy_true in E; destruct E as (? & -> & ?)
           end;
    repeat split; eauto 8.
Qed.

Lemma open_contract_opened_only_if_witness :
  table_visible (smooth_page (trace fresh_world)) = Ret tt /\
  (exists n, link_count (smooth_page (trace fresh_world)) = Ret (S n)).
Proof.
  destruct (open_contract_opened_only_if smooth_page "4600001" fresh_world
              eq_refl) as (Htable & Hlink & _).
  split; assumption.
Defined.

(** X7: [open_contract] answers ["ERROR"] only if one of its Playwright
    calls raised outside the wait for the title.  Without an exception,
    a table without a row for the contract, a link without menu
    identifier, a menu without "Abrir" and a contract page that never
    shows (no title, no "Documentos", no "Visão Geral") all give
    ["NOT_FOUND"]. *)
Theorem open_contract_error_only_if
  (page : Page) (contract_id : string) (w : world) :
  (fst (open_contract page contract_id w) = Ret "ERROR" ->
   table_visible (page (trace w)) = Raise \/
   link_count (page (trace w)) = Raise \/
   link_title_attr (page (trace w)) = Raise \/
   link_inner_text (page (trace w)) = Raise \/
   link_mid (page (trace w)) = Raise \/
   link_click (page (trace w)) = Raise \/
   open_option_count (page (trace w)) = Raise \/
   open_option_click (page (trace w)) = Raise \/
   docs_text_count (page (trace w)) = Raise \/
   overview_text_count (page (trace w)) = Raise) /\
  (table_visible (page (trace w)) = Ret tt ->
   link_count (page (trace w)) = Ret 0%nat ->
   fst (open_contract page contract_id w) = Ret "NOT_FOUND") /\
  (table_visible (page (trace w)) = Ret tt ->
   (exists n, link_count (page (trace w)) = Ret (S n)) ->
   title_read (page (trace w)) ->
   (link_mid (page (trace w)) = Ret None \/
    link_mid (page (trace w)) = Ret (Some "")) ->
   fst (open_contract page contract_id w) = Ret "NOT_FOUND") /\
  (table_visible (page (trace w)) = Ret tt ->
   (exists n, link_count (page (trace w)) = Ret (S n)) ->
   title_read (page (trace w)) ->
   (exists id, link_mid (page (trace w)) = Ret (Some id) /\ id <> "") ->
   link_click (page (trace w)) = Ret tt ->
   open_option_count (page (trace w)) = Ret 0%nat ->
   fst (open_contract page contract_id w) = Ret "NOT_FOUND") /\
  (table_visible (page (trace w)) = Ret tt ->
   (exists n, link_count (page (trace w)) = Ret (S n)) ->
   title_read (page (trace w)) ->
   (exists id, link_mid (page (trace w)) = Ret (Some id) /\ id <> "") ->
   link_click (page (trace w)) = Ret tt ->
   (exists m, open_option_count (page (trace w)) = Ret (S m)) ->
   open_option_click (page (trace w)) = Ret tt ->
   title_visible (page (trace w)) = Raise ->
   docs_text_count (page (trace w)) = Ret 0%nat ->
   overview_text_count (page (trace w)) = Ret 0%nat ->
   fst (open_contract page contract_id w) = Ret "NOT_FOUND").
Proof.
  cbn [open_contract fst]. set (u := page (trace w)).
  assert (Htitle : forall k : res string,
    title_read u ->
    (title <- link_title_attr u;;
     (if truthy title then Ret tt else link_inner_text u;;; Ret tt);;; k)%res
    = k).
  { intros k [(t & -> & Ht) | (Hattr & s & Hs)].
    - cbn [res_bind truthy]. apply String.eqb_neq in Ht. now rewrite Ht.
    - destruct Hattr as [-> | ->]; cbn [res_bind truthy];
        rewrite ?String.eqb_refl; cbn [negb]; now rewrite Hs. }
  assert (Hmid : forall id, id <> "" -> truthy (Some id) = true).
  { intros id Hid. cbn. apply String.eqb_neq in Hid. now rewrite Hid. }
  unfold open_contract_body. repeat split.
  - intros H. split_calls H; tauto.
  - intros -> ->. reflexivity.
  - intros -> (n & ->) Hread Hmenu. cbn [res_bind nonzero Nat.eqb negb].
    rewrite (Htitle _ Hread).
    destruct Hmenu as [-> | ->]; reflexivity.
  - intros -> (n & ->) Hread (id & -> & Hid) -> ->.
    cbn [res_bind nonzero Nat.eqb negb]. rewrite (Htitle _ Hread).
    cbn [res_bind]. rewrite (Hmid id Hid). reflexivity.
  - intros -> (n & ->) Hread (id & -> & Hid) -> (m & ->) -> -> -> ->.
    cbn [res_bind nonzero Nat.eqb negb]. rewrite (Htitle _ Hread).
    cbn [res_bind]. rewrite (Hmid id Hid). reflexivity.
Qed.

Lemma open_contract_error_only_if_witness :
  table_visible (broken_table_page (trace fresh_world)) = Raise \/
  link_count (broken_table_page (trace fresh_world)) = Raise \/
  link_title_attr (broken_table_page (trace fresh_world)) = Raise \/
  link_inner_text (broken_table_page (trace fresh_world)) = Raise \/
  link_mid (broken_table_page (trace fresh_world)) = Raise \/
  link_click (broken_table_page (trace fresh_world)) = Raise \/
  open_option_count (broken_table_page (trace fresh_world)) = Raise \/
  open_option_click (broken_table_page (trace fresh_world)) = Raise \/
  docs_text_count (broken_table_page (trace fresh_world)) = Raise \/
  overview_text_count (broken_table_page (trace fresh_world)) = Raise.
Proof.
  apply (open_contract_error_only_if broken_table_page "4600001" fresh_world).
  reflexivity.
Defined.

(** On the page without a row for the contract, the answer is
    ["NOT_FOUND"]. *)
Lemma open_contract_not_found_witness :
  fst (open_contract no_row_page "4600001" fresh_world) = Ret "NOT_FOUND".
Proof.
  destruct (open_contract_error_only_if no_row_page "4600001" fresh_world)
    as (_ & Hrow & _).
  apply Hrow; reflexivity.
Defined.

(** X8: [access_contract_documents] raises nothing, and it answers true
    exactly when the "Documentos" tab is already selected or is found and
    clicked, the "Ações" button is found and clicked, the "Documentos"
    entry is found in one of the two menus and clicked, and the download
    page shows.  When the tab is already selected it is not clicked. *)
Theorem access_contract_documents_succeeds_iff
  (page : Page) (contract_id : string) (w : world) :
  (exists ok,
     fst (access_contract_documents page contract_id w) = Ret ok) /\
  (fst (access_contract_documents page contract_id w) = Ret true <->
   ((exists n, selected_tab_count (page (trace w)) = Ret (S n)) \/
    (selected_tab_count (page (trace w)) = Ret 0%nat /\
     (exists k, tab_count (page (trace w)) = Ret (S k)) /\
     tab_click (page (trace w)) = Ret tt)) /\
   (exists a, actions_count (page (trace w)) = Ret (S a)) /\
   actions_click (page (trace w)) = Ret tt /\
   ((exists m, menu_option_count (page (trace w)) = Ret (S m)) \/
    (menu_option_count (page (trace w)) = Ret 0%nat /\
     exists m, mymenu_option_count (page (trace w)) = Ret (S m))) /\
   docs_option_click (page (trace w)) = Ret tt /\
   download_page_visible (page (trace w)) = Ret tt).
Proof.
  cbn [access_contract_documents fst]. set (u := page (trace w)).
  split; [apply access_contract_documents_body_returns |].
  unfold access_contract_documents_body. split.
  - intros H.
    split_calls H;
      repeat match goal with
             | E : nonzero ?n = true |- _ =>
                 apply nonzero_true in E; destruct E as (? & ->)
             | E : nonzero ?n = false |- _ =>
                 destruct n; [clear E | discriminate E]
             | E : Ret _ = Ret _ |- _ => injection E as E
             end;
      try discriminate;
      repeat split; eauto 8.
  - intros (Htab & (a & Ha) & Hclick & Hmenu & Hopt & Hpage).
    rewrite Ha, Hclick, Hopt, Hpage.
    destruct Htab as [(n & ->) | (-> & (k & ->) & ->)];
      destruct Hmenu as [(m & ->) | (-> & (m & ->))]; reflexivity.
Qed.

(** What a successful download has done. *)
Lemma download_saved_inv (u : ui) (contract_id : string) (zip_path : path) :
  download_contract_documents_body u contract_id
  = Ret ("DOWNLOADED", Some zip_path) ->
  dl_page_visible u = Ret tt /\
  (checkbox_click u = Ret tt \/
   (checkbox_click u = Raise /\ checkbox_input_click u = Ret tt)) /\
  (exists suggested_filename,
     expect_download u = Ret suggested_filename /\
     zip_path
     = ((EXTRACTED_CONTRACTS_DIR ++ [contract_id])
          ++ [suggested_filename])%list) /\
  mkdir u = Ret tt /\
  save_as u = Ret tt.
Proof.
  unfold download_contract_documents_body.
  intros H.
  destruct (dl_page_visible u) as [[] |] eqn:E1;
    cbn [res_bind try_except] in H.
  2:{ destruct (no_documents_count u) as [c |]; cbn in H;
      [destruct (nonzero c) |]; discriminate H. }
  assert (Hbox : exists b,
            try_except (checkbox_click u) (checkbox_input_click u) = b /\
            (b = Ret tt ->
             checkbox_click u = Ret tt \/
             (checkbox_click u = Raise /\
              checkbox_input_click u = Ret tt))).
  { eexists. split; [reflexivity |].
    destruct (checkbox_click u) as [[] |]; cbn; [auto |].
    intros ->. auto. }
  destruct Hbox as (b & Eb & Hb). rewrite Eb in H.
  destruct b as [[] |]; cbn [res_bind try_except] in H.
  2:{ destruct (no_documents_count u) as [c |]; cbn in H;
      [destruct (nonzero c) |]; discriminate H. }
  destruct (expect_download u) as [name |] eqn:E3;
    cbn [res_bind try_except] in H.
  2:{ destruct (no_documents_count u) as [c |]; cbn in H;
      [destruct (nonzero c) |]; discriminate H. }
  destruct (mkdir u) as [[] |] eqn:E4; cbn [res_bind try_except] in H.
  2:{ destruct (no_documents_count u) as [c |]; cbn in H;
      [destruct (nonzero c) |]; discriminate H. }
  destruct (save_as u) as [[] |] eqn:E5; cbn [res_bind try_except] in H.
  2:{ destruct (no_documents_count u) as [c |]; cbn in H;
      [destruct (nonzero c) |]; discriminate H. }
  injection H as <-. repeat split; eauto.
Qed.

(** X9: [download_contract_documents] answers ["DOWNLOADED"] exactly
    when the download page shows, the checkbox is clicked (directly, or
    through its input when the direct click raises), a download starts,
    and the directory of the contract and the file are written; the path
    it returns is the output root, then the contract identifier, then the
    file name suggested by the download. *)
Theorem download_contract_documents_saved_iff
  (page : Page) (contract_id : string) (w : world) (zip_path : path) :
  fst (download_contract_documents page contract_id w)
  = Ret ("DOWNLOADED", Some zip_path) <->
  dl_page_visible (page (trace w)) = Ret tt /\
  (checkbox_click (page (trace w)) = Ret tt \/
   (checkbox_click (page (trace w)) = Raise /\
    checkbox_input_click (page (trace w)) = Ret tt)) /\
  (exists suggested_filename,
     expect_download (page (trace w)) = Ret suggested_filename /\
     zip_path
     = ((EXTRACTED_CONTRACTS_DIR ++ [contract_id])
          ++ [suggested_filename])%list) /\
  mkdir (page (trace w)) = Ret tt /\
  save_as (page (trace w)) = Ret tt.
Proof.
  cbn [download_contract_documents fst]. set (u := page (trace w)).
  split.
  - apply download_saved_inv.
  - unfold download_contract_documents_body.
    intros (Hpage & Hbox & (name & Hdl & ->) & Hmk & Hsave).
    rewrite Hpage, Hdl, Hmk, Hsave.
    destruct Hbox as [-> | (-> & ->)]; reflexivity.
Qed.

(** X10: [handle_document_errors] raises nothing and never returns the
    boolean [True].  Its result is true in the Python sense exactly when
    the error type is ["TIMEOUT"] and the reload succeeds, or
    ["DOWNLOAD_FAILED"] and the retry link is clicked; the result is then
    a tuple of three items that ends in [True].  Every other case,
    ["NOT_FOUND"], an unknown type and a page call that raises, gives
    [False]. *)
Theorem handle_document_errors_result
  (u : recovery_ui) (error_type : string) :
  exists v,
    handle_document_errors u error_type = Ret v /\
    v <> Atom (PyBool true) /\
    (py_truth v = true <->
     (error_type = "TIMEOUT" /\ exists r, reload u = Ret r) \/
     (error_type = "DOWNLOAD_FAILED" /\ retry_click u = Ret tt)) /\
    (py_truth v = true ->
     exists first, v = Tuple [first; PyNone; PyBool true]) /\
    (py_truth v = false -> v = Atom (PyBool false)).
Proof.
  unfold handle_document_errors.
  destruct (String.eqb error_type "TIMEOUT") eqn:E1;
    [| destruct (String.eqb error_type "NOT_FOUND") eqn:E2;
       [| destruct (String.eqb error_type "DOWNLOAD_FAILED") eqn:E3]];
    repeat match goal with
           | E : String.eqb _ _ = true |- _ => apply String.eqb_eq in E
           | E : String.eqb _ _ = false |- _ => apply String.eqb_neq in E
           end;
    subst;
    try (destruct (reload u) as [r |] eqn:Er);
    try (destruct (retry_click u) as [[] |] eqn:Ec);
    cbn [res_bind try_except];
    eexists; (split; [reflexivity |]); (split; [discriminate |]);
    cbn [py_truth]; repeat split; intros;
    repeat match goal with
           | H : _ \/ _ |- _ => destruct H
           | H : _ /\ _ |- _ => destruct H
           | H : exists _, _ |- _ => destruct H
           end;
    try discriminate; try congruence; eauto 6.
Qed.

(** ** Contract processor: gating, statuses and the saved file *)

Section ProcessorSteps.

Variable page : Page.
Variable contract_id : string.


End ProcessorSteps.

(** X11: the steps of [process_contract] are gated.  The gateway calls
    of a run are the first [n] of search, open, access to the documents
    and download, in that order, followed by the visit of the home page;
    the status tells how far the run went: one step for
    [ERROR_SEARCH_FAILED], two for [NOT_FOUND] and [ERROR_OPEN_FAILED],
    three for [ERROR_DOCUMENTS_ACCESS_FAILED], and all four for
    [PROCESSED], [NO_FILES] and [ERROR_PROCESSED]. *)
Theorem process_contract_gated
  (page : Page) (contract_id ariba_url : string) (w : world) :
  exists r w' n,
    process_contract page contract_id ariba_url w = (Ret r, w') /\
    trace w'
    = (trace w ++ firstn n (gateway_steps contract_id)
         ++ [EvNavigateHome])%list /\
    (n = 1%nat <-> Status r = "ERROR_SEARCH_FAILED") /\
    (n = 2%nat <->
     Status r = "NOT_FOUND" \/ Status r = "ERROR_OPEN_FAILED") /\
    (n = 3%nat <-> Status r = "ERROR_DOCUMENTS_ACCESS_FAILED") /\
    (n = 4%nat <->
     Status r = "PROCESSED" \/ Status r = "NO_FILES" \/
     Status r = "ERROR_PROCESSED").
Proof.
  destruct (branch_complete page contract_id (now w) w)
    as (c & l & w1 & Htry & B).
  rewrite (process_contract_finally page contract_id ariba_url w _ _ _ Htry).
  destruct (branch_steps page contract_id (now w) w c l w1 B)
    as (n & Htrace & Hn).
  do 2 eexists. exists n. split; [reflexivity |].
  cbn [trace after_call Status]. rewrite Htrace, <- app_assoc.
  split; [reflexivity |].
  destruct Hn as [(-> & ->) | [(-> & [-> | ->]) | [(-> & ->) |
                  (-> & [-> | [-> | ->]])]]];
    repeat split; intros; try reflexivity; try discriminate; auto;
    repeat match goal with
           | H : _ \/ _ |- _ => destruct H
           end; try discriminate; auto.
Qed.


(** X13: when [open_contract] answers ["ERROR"], the recorded status is
    [ERROR_OPEN_FAILED]; when [access_contract_documents] answers false,
    it is [ERROR_DOCUMENTS_ACCESS_FAILED].  In both cases no later step
    is attempted, the file path is none and the home page is visited. *)
Theorem process_contract_open_or_access_failed
  (page : Page) (contract_id ariba_url : string) (w w1 w2 : world) :
  search_contract page contract_id w = (Ret true, w1) ->
  (open_contract page contract_id w1 = (Ret "ERROR", w2) ->
   exists r w',
     process_contract page contract_id ariba_url w = (Ret r, w') /\
     Status r = "ERROR_OPEN_FAILED" /\ File_Path r = None /\
     trace w'
     = (trace w ++ [EvSearch contract_id; EvOpen contract_id;
                    EvNavigateHome])%list) /\
  (forall w3,
     open_contract page contract_id w1 = (Ret "OPENED", w2) ->
     access_contract_documents page contract_id w2 = (Ret false, w3) ->
     exists r w',
       process_contract page contract_id ariba_url w = (Ret r, w') /\
       Status r = "ERROR_DOCUMENTS_ACCESS_FAILED" /\ File_Path r = None /\
       trace w'
       = (trace w ++ [EvSearch contract_id; EvOpen contract_id;
                      EvAccessDocuments contract_id;
                      EvNavigateHome])%list).
Proof.
  intros Hs. split.
  - intros Ho.
    pose proof (BrOpenFailed page contract_id (now w) w _ _ Hs Ho) as B.
    apply branch_sound in B.
    rewrite (process_contract_finally page contract_id ariba_url w _ _ _ B).
    do 2 eexists. split; [reflexivity |].
    unfold search_contract in Hs. unfold open_contract in Ho.
    injection Hs as _ <-. injection Ho as _ <-.
    cbn. repeat rewrite <- app_assoc. repeat split.
  - intros w3 Ho Ha.
    pose proof (BrAccessFailed page contract_id (now w) w _ _ _ Hs Ho Ha)
      as B.
    apply branch_sound in B.
    rewrite (process_contract_finally page contract_id ariba_url w _ _ _ B).
    do 2 eexists. split; [reflexivity |].
    unfold search_contract in Hs. unfold open_contract in Ho.
    unfold access_contract_documents in Ha.
    injection Hs as _ <-. injection Ho as _ <-. injection Ha as _ <-.
    cbn. repeat rewrite <- app_assoc. repeat split.
Qed.

Lemma process_contract_open_or_access_failed_witness :
  exists r w',
    process_contract broken_table_page "4600001" "https://ariba" fresh_world
    = (Ret r, w') /\
    Status r = "ERROR_OPEN_FAILED" /\ File_Path r = None /\
    trace w'
    = (trace fresh_world ++ [EvSearch "4600001"; EvOpen "4600001";
                             EvNavigateHome])%list.
Proof.
  apply (process_contract_open_or_access_failed broken_table_page "4600001"
           "https://ariba" fresh_world
           (snd (search_contract broken_table_page "4600001" fresh_world))
           (snd (open_contract broken_table_page "4600001"
                   (snd (search_contract broken_table_page "4600001"
                           fresh_world))))
           eq_refl).
  reflexivity.
Defined.

(** ** Batch runner: the whole session *)

Section SessionFacts.

Variable controller : ProcessController.
Variable page : Page.
Variables ARIBA_LOGIN ARIBA_PASSWORD URL_ARIBA : string.

Lemma process_contract_events (contract_id : string) (w : world) r w' :
  process_contract page contract_id URL_ARIBA w = (r, w') ->
  exists evs,
    trace w' = (trace w ++ evs)%list /\ Forall contract_event evs.
Proof.
  destruct (branch_complete page contract_id (now w) w)
    as (c & l & w1 & Htry & B).
  rewrite (process_contract_finally page contract_id URL_ARIBA w _ _ _ Htry).
  intros H. injection H as _ <-.
  destruct (branch_steps page contract_id (now w) w c l w1 B)
    as (n & Htrace & _).
  exists (firstn n (gateway_steps contract_id) ++ [EvNavigateHome])%list.
  cbn [trace after_call]. rewrite Htrace, <- app_assoc.
  split; [reflexivity |].
  apply Forall_app. split.
  - apply Forall_forall. intros e He. apply in_firstn_inv in He.
    cbn in He. unfold contract_event.
    repeat (destruct He as [<- | He]; [repeat split; discriminate |]).
    contradiction.
  - constructor; [| constructor]. repeat split; discriminate.
Qed.

Lemma for_loop_events :
  forall ids handled report w,
  exists evs,
    trace (snd (for_loop process_contract controller page URL_ARIBA
                  ids handled report w))
    = (trace w ++ evs)%list /\
    Forall contract_event evs.
Proof.
  induction ids as [| contract_id rest IH]; intros handled report w.
  - exists []. cbn. now rewrite app_nil_r.
  - cbn [for_loop]. destruct (should_stop controller handled).
    + exists []. cbn. now rewrite app_nil_r.
    + destruct (process_contract page contract_id URL_ARIBA w)
        as [[r |] w1] eqn:E;
        destruct (process_contract_events _ _ _ _ E) as (evs1 & H1 & F1);
        edestruct IH as (evs2 & H2 & F2);
        rewrite H2, H1, <- app_assoc;
        eexists; (split; [reflexivity |]); apply Forall_app; auto.
Qed.

(** The loop adds a row as soon as one contract is started. *)
Lemma for_loop_first_row (contract_id : string) (rest : list string)
  (w : world) :
  should_stop controller 0 = false ->
  fst (for_loop process_contract controller page URL_ARIBA
         (contract_id :: rest) 0 [] w) <> [].
Proof.
  intros Hgo. cbn [for_loop]. rewrite Hgo.
  destruct (process_contract page contract_id URL_ARIBA w) as [[r |] w1];
    match goal with
    | |- fst (for_loop _ _ _ _ ?ids ?h ?rep ?v) <> [] =>
        destruct (for_loop_rows process_contract controller page URL_ARIBA
                    (fun _ => True) (fun _ _ _ _ _ _ => I)
                    (fun _ _ _ _ => I) ids h rep v) as (added & -> & _)
    end; cbn; discriminate.
Qed.

Lemma login_world (w : world) r w0 :
  login page ARIBA_LOGIN ARIBA_PASSWORD URL_ARIBA w = (r, w0) ->
  (exists ok, r = Ret ok) /\
  trace w0 = (trace w ++ [EvLogin])%list /\
  excel_writable w0 = excel_writable w /\
  saved_reports w0 = saved_reports w.
Proof.
  unfold login. intros H. injection H as <- <-.
  split; [apply login_body_returns |]. cbn. auto.
Qed.

End SessionFacts.

(** X14: when the login fails, the session processes no contract and
    writes no report; it closes the browser and ends normally, not with
    exit status 1. *)
Theorem run_session_login_failed
  (controller : ProcessController) (page : Page)
  (ARIBA_LOGIN ARIBA_PASSWORD URL_ARIBA : string)
  (contract_ids : list string) (w w0 : world) :
  login page ARIBA_LOGIN ARIBA_PASSWORD URL_ARIBA w = (Ret false, w0) ->
  exists w',
    run_session process_contract controller page
      ARIBA_LOGIN ARIBA_PASSWORD URL_ARIBA contract_ids w = (Finished, w') /\
    trace w' = (trace w ++ [EvLogin; EvBrowserClose])%list /\
    saved_reports w' = saved_reports w.
Proof.
  intros Hlogin. unfold run_session. rewrite Hlogin. cbn [negb].
  eexists. split; [reflexivity |].
  destruct (login_world page _ _ _ _ _ _ Hlogin) as (_ & Ht & _ & Hr).
  cbn [trace saved_reports browser_close]. rewrite Ht, Hr, <- app_assoc.
  split; reflexivity.
Qed.

Lemma run_session_login_failed_witness :
  exists w',
    run_session process_contract never_stop rejected_login_page
      "bot" "secret" "https://ariba" ["4600001"] fresh_world
    = (Finished, w') /\
    trace w' = (trace fresh_world ++ [EvLogin; EvBrowserClose])%list /\
    saved_reports w' = saved_reports fresh_world.
Proof.
  apply (run_session_login_failed never_stop rejected_login_page
           "bot" "secret" "https://ariba" ["4600001"] fresh_world
           (snd (login rejected_login_page "bot" "secret" "https://ariba"
                   fresh_world))).
  reflexivity.
Defined.

(** X15: the session ends with exit status 1 exactly when the login
    succeeded, at least one contract was started, and the report cannot
    be written.  In that case no report is stored and the browser is
    never closed: [browser.close()] comes after [save_report] in the
    [finally] block. *)
Theorem run_session_exit_status
  (controller : ProcessController) (page : Page)
  (ARIBA_LOGIN ARIBA_PASSWORD URL_ARIBA : string)
  (contract_ids : list string) (w : world) :
  (fst (run_session process_contract controller page
          ARIBA_LOGIN ARIBA_PASSWORD URL_ARIBA contract_ids w) = SysExit1 <->
   fst (login page ARIBA_LOGIN ARIBA_PASSWORD URL_ARIBA w) = Ret true /\
   contract_ids <> [] /\
   should_stop controller 0 = false /\
   excel_writable w = false) /\
  (fst (run_session process_contract controller page
          ARIBA_LOGIN ARIBA_PASSWORD URL_ARIBA contract_ids w) = SysExit1 ->
   saved_reports
     (snd (run_session process_contract controller page
             ARIBA_LOGIN ARIBA_PASSWORD URL_ARIBA contract_ids w))
   = saved_reports w /\
   exists evs,
     trace (snd (run_session process_contract controller page
                   ARIBA_LOGIN ARIBA_PASSWORD URL_ARIBA contract_ids w))
     = (trace w ++ evs)%list /\
     ~ In EvBrowserClose evs).
Proof.
  unfold run_session.
  destruct (login page ARIBA_LOGIN ARIBA_PASSWORD URL_ARIBA w)
    as [rl w0] eqn:Hlogin.
  destruct (login_world page _ _ _ _ _ _ Hlogin)
    as ((ok & ->) & Ht0 & Hx0 & Hr0).
  cbn [fst]. destruct ok; cbn [negb].
  2:{ cbn. split; [split; [discriminate | intros (H & _); discriminate H] |].
      discriminate. }
  destruct (for_loop process_contract controller page URL_ARIBA
              contract_ids 0 [] w0) as [rows w1] eqn:Eloop.
  destruct (for_loop_keeps_reports process_contract controller page URL_ARIBA
              (fun cid => process_contract_keeps_reports page cid URL_ARIBA)
              contract_ids 0%nat [] w0) as (Hx & Hr).
  destruct (for_loop_events controller page URL_ARIBA contract_ids 0%nat []
              w0) as (evs & Ht & Hev).
  rewrite Eloop in Hx, Hr, Ht. cbn [snd] in Hx, Hr, Ht.
  assert (Hrows : rows <> [] <->
                  contract_ids <> [] /\ should_stop controller 0 = false).
  { destruct contract_ids as [| cid rest].
    - cbn in Eloop. injection Eloop as <- _. split; [congruence |].
      intros (H & _). congruence.
    - destruct (should_stop controller 0) eqn:Estop.
      + cbn [for_loop] in Eloop. rewrite Estop in Eloop.
        injection Eloop as <- _. split; [congruence |].
        intros (_ & H). discriminate H.
      + pose proof (for_loop_first_row controller page URL_ARIBA cid rest
                      w0 Estop) as Hne.
        rewrite Eloop in Hne. cbn [fst] in Hne.
        split; [intros _; split; [discriminate | reflexivity] | auto]. }
  destruct rows as [| row rows'].
  - cbn. split; [| discriminate].
    split; [discriminate |].
    intros (_ & Hids & Hgo & _). exfalso.
    assert (H : @nil outcome <> []) by (apply Hrows; auto). congruence.
  - unfold save_report. rewrite Hx, Hx0.
    destruct (excel_writable w) eqn:Edisk; cbn [fst snd].
    + split; [| discriminate].
      split; [discriminate | intros (_ & _ & _ & H); discriminate H].
    + split.
      * split; [| reflexivity]. intros _.
        destruct Hrows as (Hrows & _).
        destruct Hrows as (Hids & Hgo); [discriminate |]. auto.
      * intros _. split; [now rewrite Hr, Hr0 |].
        exists ([EvLogin] ++ evs)%list.
        rewrite Ht, Ht0, <- app_assoc. split; [reflexivity |].
        intros Hin. apply in_app_or in Hin.
        destruct Hin as [[H | []] | Hin]; [discriminate H |].
        rewrite Forall_forall in Hev. apply Hev in Hin.
        destruct Hin as (_ & _ & H). now apply H.
Qed.

(** X16: without a stop request and with a writable report directory, a
    session whose login succeeds handles the whole plan: the report it
    writes has one row per planned identifier, in plan order, every row
    with a recorded status; the browser is closed last and the session
    ends normally. *)
Theorem run_session_complete
  (controller : ProcessController) (page : Page)
  (ARIBA_LOGIN ARIBA_PASSWORD URL_ARIBA : string)
  (contract_ids : list string) (w w0 : world) :
  login page ARIBA_LOGIN ARIBA_PASSWORD URL_ARIBA w = (Ret true, w0) ->
  (forall n, should_stop controller n = false) ->
  excel_writable w = true ->
  contract_ids <> [] ->
  exists rows w' evs,
    run_session process_contract controller page
      ARIBA_LOGIN ARIBA_PASSWORD URL_ARIBA contract_ids w = (Finished, w') /\
    map Contract_ID rows = contract_ids /\
    Forall (fun row => In (Status row) recorded_statuses) rows /\
    saved_reports w' = (saved_reports w ++ [rows])%list /\
    trace w' = (trace w ++ evs ++ [EvSaveReport; EvBrowserClose])%list.
Proof.
  intros Hlogin Hnever Hdisk Hids.
  destruct (login_world page _ _ _ _ _ _ Hlogin) as (_ & Ht0 & Hx0 & Hr0).
  destruct (for_loop process_contract controller page URL_ARIBA
              contract_ids 0 [] w0) as [rows w1] eqn:Eloop.
  destruct (for_loop_until_stop process_contract controller page URL_ARIBA
              contract_ids (length contract_ids) 0 [] w0)
    as (added & Hrows & Hmap); auto; try lia.
  rewrite Eloop in Hrows. cbn [fst app] in Hrows. subst added.
  rewrite firstn_all in Hmap.
  destruct (for_loop_keeps_reports process_contract controller page URL_ARIBA
              (fun cid => process_contract_keeps_reports page cid URL_ARIBA)
              contract_ids 0%nat [] w0) as (Hx & Hr).
  destruct (for_loop_events controller page URL_ARIBA contract_ids 0%nat []
              w0) as (evs & Ht & _).
  rewrite Eloop in Hx, Hr, Ht. cbn [snd] in Hx, Hr, Ht.
  assert (Hstatus : Forall (fun row => In (Status row) recorded_statuses)
                      rows).
  { destruct (for_loop_rows process_contract controller page URL_ARIBA
                (fun row => In (Status row) recorded_statuses))
      with (ids := contract_ids) (handled := 0%nat)
           (report := @nil outcome) (w := w0) as (added & Hadd & Hall).
    - intros cid v r v' elapsed Hrun. cbn [Status].
      destruct (branch_complete page cid (now v) v)
        as (c & l & v1 & Htry & B).
      rewrite (process_contract_finally page cid URL_ARIBA v _ _ _ Htry)
        in Hrun.
      injection Hrun as <- _. cbn [Status].
      exact (branch_status page cid (now v) v c l v1 B).
    - intros cid v v' Hrun. exfalso.
      destruct (branch_complete page cid (now v) v)
        as (c & l & v1 & Htry & B).
      rewrite (process_contract_finally page cid URL_ARIBA v _ _ _ Htry)
        in Hrun.
      discriminate Hrun.
    - rewrite Eloop in Hadd. cbn [fst app] in Hadd. now subst added. }
  exists rows. unfold run_session. rewrite Hlogin. cbn [negb].
  rewrite Eloop.
  destruct rows as [| row rows'].
  { destruct contract_ids; [congruence | discriminate Hmap]. }
  unfold save_report. rewrite Hx, Hx0, Hdisk.
  eexists. exists ([EvLogin] ++ evs)%list. split; [reflexivity |].
  split; [exact Hmap |]. split; [exact Hstatus |].
  cbn [saved_reports trace browser_close].
  rewrite Hr, Hr0, Ht, Ht0. split; [reflexivity |].
  rewrite <- !app_assoc. reflexivity.
Qed.

Lemma run_session_complete_witness :
  exists rows w' evs,
    run_session process_contract never_stop smooth_page
      "bot" "secret" "https://ariba" ["4600001"; "4600002"] fresh_world
    = (Finished, w') /\
    map Contract_ID rows = ["4600001"; "4600002"] /\
    Forall (fun row => In (Status row) recorded_statuses) rows /\
    saved_reports w' = (saved_reports fresh_world ++ [rows])%list /\
    trace w'
    = (trace fresh_world ++ evs ++ [EvSaveReport; EvBrowserClose])%list.
Proof.
  apply (run_session_complete never_stop smooth_page
           "bot" "secret" "https://ariba" ["4600001"; "4600002"]
           fresh_world
           (snd (login smooth_page "bot" "secret" "https://ariba"
                   fresh_world))).
  - reflexivity.
  - intros n. reflexivity.
  - reflexivity.
  - discriminate.
Defined.

(** ** Batch runner: rows, durations and the summary *)

(** X17: the [Duration] column of the report is measured by the loop
    around the whole call of [process_contract], so it covers the visit
    of the home page; the [Duration] that [process_contract] returns is
    not copied to the row.  The row takes its status and file path from
    the returned outcome. *)
Theorem for_loop_row_duration
  (controller : ProcessController) (page : Page) (URL_ARIBA : string)
  (contract_id : string) (rest : list string) (handled : nat)
  (report : list outcome) (w : world) :
  should_stop controller handled = false ->
  exists r c l w1 w',
    try_block page contract_id (now w) w = (c, l, w1) /\
    process_contract page contract_id URL_ARIBA w = (Ret r, w') /\
    Duration r = Int (int_seconds (now w1 - now w)) /\
    for_loop process_contract controller page URL_ARIBA
      (contract_id :: rest) handled report w
    = for_loop process_contract controller page URL_ARIBA
        rest (S handled)
        (report ++ [{| Contract_ID := contract_id;
                       Status := Status r;
                       Duration :=
                         Round2 (now w1 - now w
                                 + home_ms (page (trace w1)));
                       File_Path := File_Path r |}])
        w'.
Proof.
  intros Hgo.
  destruct (try_block page contract_id (now w) w) as [[c l] w1] eqn:Htry.
  pose proof (process_contract_finally page contract_id URL_ARIBA w _ _ _
                Htry) as Hrun.
  do 5 eexists. split; [reflexivity |]. split; [exact Hrun |].
  split; [reflexivity |].
  cbn [for_loop]. rewrite Hgo, Hrun. cbn [now after_call Status File_Path].
  do 4 f_equal. f_equal. lia.
Qed.

Lemma for_loop_row_duration_witness :
  exists r c l w1 w',
    try_block smooth_page "4600001" (now fresh_world) fresh_world
    = (c, l, w1) /\
    process_contract smooth_page "4600001" "https://ariba" fresh_world
    = (Ret r, w') /\
    Duration r = Int (int_seconds (now w1 - now fresh_world)) /\
    for_loop process_contract never_stop smooth_page "https://ariba"
      ["4600001"] 0 [] fresh_world
    = for_loop process_contract never_stop smooth_page "https://ariba"
        [] 1
        ([] ++ [{| Contract_ID := "4600001";
                   Status := Status r;
                   Duration :=
                     Round2 (now w1 - now fresh_world
                             + home_ms (smooth_page (trace w1)));
                   File_Path := File_Path r |}])
        w'.
Proof.
  apply (for_loop_row_duration never_stop smooth_page "https://ariba"
           "4600001" [] 0 [] fresh_world).
  reflexivity.
Defined.

(** X18: in the summary, the number of failures, computed as the total
    minus the successes minus the contracts without documents, is the
    number of rows whose status is neither [PROCESSED] nor [NO_FILES];
    the three counts are not negative and add up to the number of
    rows. *)
Theorem generate_summary_counts
  (report_data : list outcome) (start_time report : Z) (w : world) :
  let s := generate_summary report_data start_time report w in
  error_count s = count_failures report_data /\
  0 <= success_count s /\ 0 <= no_files_count s /\ 0 <= error_count s /\
  success_count s + no_files_count s + error_count s = processed_count s.
Proof.
  cbv zeta.
  cbn [generate_summary error_count success_count no_files_count
         processed_count].
  assert (H : Z.of_nat (length report_data)
              - count_status "PROCESSED" report_data
              - count_status "NO_FILES" report_data
              = count_failures report_data).
  { unfold count_status, count_failures.
    induction report_data as [| row rows IH]; [reflexivity |].
    cbn [filter length].
    destruct (String.eqb (Status row) "PROCESSED") eqn:E1.
    - apply String.eqb_eq in E1. rewrite E1.
      change (String.eqb "PROCESSED" "NO_FILES") with false.
      cbn [orb negb length]. lia.
    - destruct (String.eqb (Status row) "NO_FILES");
        cbn [orb negb length]; lia. }
  unfold count_status, count_failures in *. repeat split; lia.
Qed.

(** X19: whatever the processor and the stop flag do, the loop keeps the
    rows it was given and adds at most one row per planned identifier:
    the identifiers of the added rows are a prefix of the plan. *)
Theorem for_loop_rows_follow_plan
  (processor : Page -> string -> string -> M outcome)
  (controller : ProcessController) (page : Page) (URL_ARIBA : string)
  (contract_ids : list string) (handled : nat) (report : list outcome)
  (w : world) :
  exists added k,
    fst (for_loop processor controller page URL_ARIBA
           contract_ids handled report w) = (report ++ added)%list /\
    map Contract_ID added = firstn k contract_ids /\
    (k <= length contract_ids)%nat.
Proof.
  revert handled report w.
  induction contract_ids as [| contract_id rest IH]; intros handled report w.
  - exists [], 0%nat. cbn. rewrite app_nil_r. auto.
  - cbn [for_loop]. destruct (should_stop controller handled).
    + exists [], 0%nat. cbn. rewrite app_nil_r. repeat split. lia.
    + destruct (processor page contract_id URL_ARIBA w) as [[r |] w1];
        match goal with
        | |- context [for_loop _ _ _ _ _ ?h ?rep ?v] =>
            destruct (IH h rep v) as (added & k & Hrows & Hmap & Hk)
        end;
        rewrite Hrows, <- app_assoc;
        eexists; exists (S k);
        (split; [reflexivity |]);
        cbn [app map firstn Contract_ID error_row length];
        rewrite Hmap; (split; [reflexivity | lia]).
Qed.

(** ** [main]: planning before the session *)

Section MainFacts.



End MainFacts.



(** ** Resume tracker: what a marker means *)

(** X21: [get_last_contract_id] returns a marker only if the output root
    exists, no I/O error occurred during the inspection, and the marker
    is the name of a non-empty subdirectory; a plain file and an empty
    directory are never the marker, however recent. *)
Theorem get_last_contract_id_some_only_if (root : out_dir) (marker : string) :
  get_last_contract_id root = Ret (Some marker) ->
  dir_exists root = Ret true /\
  ~ io_error root /\
  exists entries d,
    iterdir root = Ret entries /\ In d entries /\
    nonempty_subdir d /\ entry_name d = marker.
Proof.
  unfold get_last_contract_id. intros H.
  destruct (dir_exists root) as [[|] |] eqn:Ex; cbn [res_bind negb] in H;
    try discriminate H.
  destruct (iterdir root) as [entries |] eqn:Hit; [| discriminate H].
  cbn [res_bind] in H.
  destruct (nonempty_dirs entries) as [folders |] eqn:Ef; [| discriminate H].
  cbn [res_bind] in H.
  pose proof (nonempty_dirs_In _ _ Ef) as Hmem.
  destruct folders as [| f fs]; [discriminate H |].
  cbn [max_by_mtime] in H.
  destruct (getmtime f) as [tf |] eqn:Htf; [| discriminate H].
  cbn [res_bind] in H.
  destruct (max_from f tf fs) as [best |] eqn:Hmax; [| discriminate H].
  cbn in H. injection H as <-.
  assert (Hkeys : forall d, In d (f :: fs) -> getmtime d <> Raise).
  { intros d [<- | Hd] E; [congruence |].
    rewrite (max_from_raise fs f tf d Hd E) in Hmax. discriminate. }
  assert (Hbest : In best (f :: fs)).
  { assert (Hall : forall d, In d fs -> exists t, getmtime d = Ret t).
    { intros d Hd. destruct (getmtime d) eqn:E; [eauto |].
      exfalso. apply (Hkeys d); [now right | assumption]. }
    destruct (max_from_greatest fs f tf Htf Hall)
      as (d & t & Hmax' & Hin & _).
    rewrite Hmax in Hmax'. now injection Hmax' as <-. }
  split; [reflexivity |]. split.
  - intros [Herr | (entries' & d & Hit' & Hd & Hp)]; [congruence |].
    rewrite Hit in Hit'. injection Hit' as <-.
    destruct Hp as [Hp | [Hp | (Hne & Hp)]].
    + rewrite (nonempty_dirs_raise entries d) in Ef by auto. discriminate.
    + rewrite (nonempty_dirs_raise entries d) in Ef by auto. discriminate.
    + apply (Hkeys d); [apply Hmem; auto | assumption].
  - exists entries, best. apply Hmem in Hbest. tauto.
Qed.

Lemma get_last_contract_id_some_only_if_witness :
  dir_exists sample_root = Ret true /\
  ~ io_error sample_root /\
  exists entries d,
    iterdir sample_root = Ret entries /\ In d entries /\
    nonempty_subdir d /\ entry_name d = "4600002".
Proof.
  apply (get_last_contract_id_some_only_if sample_root "4600002").
  reflexivity.
Defined.

(** ** [format_duration] *)

Lemma to_int_parses (n : Z) :
  NilZero.int_of_string (py_str_int n) = Some (Z.to_int n).
Proof.
  unfold py_str_int. apply NilZero.isi.
  - destruct n; cbn; try discriminate.
    intros [= H]. now apply (DecimalPos.Unsigned.to_uint_nonnil p).
  - destruct n; cbn; try discriminate.
    intros [= H]. now apply (DecimalPos.Unsigned.to_uint_nonnil p).
Qed.

Lemma read_py_str_int (n : Z) : read_int (py_str_int n) = Some n.
Proof.
  unfold read_int. rewrite to_int_parses. cbn. f_equal. apply DecimalZ.of_to.
Qed.

Lemma of_int_leading_zero (d : Decimal.uint) :
  Z.of_int (Decimal.Pos (Decimal.D0 d)) = Z.of_int (Decimal.Pos d).
Proof.
  rewrite <- (DecimalZ.of_int_norm (Decimal.Pos (Decimal.D0 d))).
  rewrite <- (DecimalZ.of_int_norm (Decimal.Pos d)).
  reflexivity.
Qed.

Lemma read_format_02d (n : Z) : read_int (format_02d n) = Some n.
Proof.
  unfold format_02d.
  destruct (String.length (py_str_int n) <? 2)%nat eqn:E;
    [| apply read_py_str_int].
  pose proof (to_int_parses n) as Hp.
  pose proof (read_py_str_int n) as Hr.
  destruct (py_str_int n) as [| c [| c' s]]; try discriminate.
  unfold read_int in *. cbn [append].
  unfold NilZero.int_of_string in *.
  change (Ascii.eqb "0" "-") with false. cbv iota.
  destruct (Ascii.eqb c "-") eqn:Ec; [discriminate Hp |].
  unfold NilZero.uint_of_string in *.
  cbn [NilEmpty.uint_of_string] in *.
  destruct (uint_of_char c (Some Decimal.Nil)) as [d |]; [| discriminate Hp].
  cbn [uint_of_char option_map] in Hr |- *.
  rewrite of_int_leading_zero. exact Hr.
Qed.

Lemma length_append (a b : string) :
  String.length (a ++ b) = (String.length a + String.length b)%nat.
Proof.
  induction a as [| c a IH]; cbn; [reflexivity | now rewrite IH].
Qed.

Lemma format_02d_two_digits (n : Z) :
  0 <= n < 100 -> String.length (format_02d n) = 2%nat.
Proof.
  intros Hn. replace n with (Z.of_nat (Z.to_nat n)) by lia.
  assert (Hk : (Z.to_nat n < 100)%nat) by lia.
  set (k := Z.to_nat n) in *. clearbody k. clear n Hn.
  do 100 (destruct k as [| k]; [reflexivity |]). lia.
Qed.

(** X22: [format_duration] writes three fields separated by colons.
    Read back as decimal numbers they are the hours, minutes and seconds
    of the duration: minutes and seconds have exactly two digits and are
    below 60, and 3600 times the hours plus 60 times the minutes plus the
    seconds is the input, negative inputs included.  Below one hundred
    hours the text has exactly eight characters. *)
Theorem format_duration_fields (seconds : Z) :
  exists H M S h m s,
    format_duration seconds = H ++ ":" ++ M ++ ":" ++ S /\
    String.length M = 2%nat /\ String.length S = 2%nat /\
    read_int H = Some h /\ read_int M = Some m /\ read_int S = Some s /\
    0 <= m < 60 /\ 0 <= s < 60 /\
    3600 * h + 60 * m + s = seconds /\
    (0 <= seconds < 360000 -> String.length (format_duration seconds) = 8%nat).
Proof.
  exists (format_02d (seconds / 3600)),
    (format_02d ((seconds mod 3600) / 60)), (format_02d (seconds mod 60)),
    (seconds / 3600), ((seconds mod 3600) / 60), (seconds mod 60).
  assert (Hm : 0 <= (seconds mod 3600) / 60 < 60).
  { pose proof (Z.mod_pos_bound seconds 3600 ltac:(lia)).
    split; [apply Z.div_pos; lia | apply Z.div_lt_upper_bound; lia]. }
  assert (Hs : 0 <= seconds mod 60 < 60) by (apply Z.mod_pos_bound; lia).
  split; [reflexivity |].
  split; [apply format_02d_two_digits; lia |].
  split; [apply format_02d_two_digits; lia |].
  repeat (split; [apply read_format_02d |]).
  split; [exact Hm |]. split; [exact Hs |]. split.
  - clear Hm Hs. Z.div_mod_to_equations. lia.
  - intros Hrange. unfold format_duration.
    rewrite !length_append, !format_02d_two_digits; try lia; try reflexivity.
    split; [apply Z.div_pos; lia | apply Z.div_lt_upper_bound; lia].
Qed.

(** ** [dividr.py] *)

Lemma unique_from_In (cells : list string) :
  forall seen x,
    In x (unique_from seen cells) <-> In x cells /\ ~ In x seen.
Proof.
  induction cells as [| y r IH]; intros seen x; cbn [unique_from].
  - cbn. tauto.
  - destruct (py_in y seen) eqn:E.
    + apply py_in_In in E. rewrite IH. cbn [In]. split.
      * tauto.
      * intros ([-> | H] & Hn); tauto.
    + assert (Hy : ~ In y seen).
      { intros H. apply py_in_In in H. congruence. }
      cbn [In]. rewrite IH. cbn [In].
      destruct (string_dec y x) as [-> | Hne]; tauto.
Qed.

Lemma unique_from_NoDup (cells : list string) :
  forall seen, NoDup (unique_from seen cells).
Proof.
  induction cells as [| y r IH]; intros seen; cbn [unique_from].
  - constructor.
  - destruct (py_in y seen); [apply IH |].
    constructor; [| apply IH].
    rewrite unique_from_In. cbn. tauto.
Qed.

Lemma thirds {A : Type} (l : list A) :
  let p := Z.of_nat (length l) / 3 in
  (py_slice l 0 p ++ py_slice l p (2 * p) ++ py_slice_from l (2 * p))%list = l /\
  length (py_slice l 0 p) = Z.to_nat p /\
  length (py_slice l p (2 * p)) = Z.to_nat p.
Proof.
  cbv zeta. set (len := Z.of_nat (length l)). set (p := len / 3).
  assert (Hp : 0 <= p /\ 2 * p <= len).
  { subst p. pose proof (Z.div_mod len 3). pose proof (Z.mod_pos_bound len 3).
    lia. }
  unfold py_slice, py_slice_from, slice_bound. fold len.
  change (0 <? 0) with false. cbv iota.
  assert (E1 : (p <? 0) = false) by (apply Z.ltb_ge; lia).
  assert (E2 : (2 * p <? 0) = false) by (apply Z.ltb_ge; lia).
  rewrite E1, E2.
  rewrite (Z.min_l 0), (Z.min_l p), (Z.min_l (2 * p)) by lia.
  change (Z.to_nat 0) with O. cbn [skipn].
  replace (Z.to_nat (p - 0)) with (Z.to_nat p) by lia.
  replace (Z.to_nat (2 * p - p)) with (Z.to_nat p) by lia.
  replace (Z.to_nat (2 * p)) with (Z.to_nat p + Z.to_nat p)%nat by lia.
  split; [| split].
  - rewrite <- (skipn_skipn (Z.to_nat p) (Z.to_nat p) l).
    rewrite firstn_skipn. apply firstn_skipn.
  - rewrite length_firstn. lia.
  - rewrite length_firstn, length_skipn. lia.
Qed.

Lemma column_filter_frame (mask : list bool) (df : list (string * list string))
  (name : string) :
  column name (filter_frame mask df)
  = option_map (select_rows mask) (column name df).
Proof.
  induction df as [| [n cells] r IH]; [reflexivity |].
  cbn [filter_frame map column fst snd]. destruct (String.eqb name n).
  - reflexivity.
  - exact IH.
Qed.

Lemma select_rows_isin (cells ids : list string) :
  select_rows (isin cells ids) cells = filter (fun c => py_in c ids) cells.
Proof.
  unfold isin. induction cells as [| c r IH]; [reflexivity |].
  cbn [map select_rows filter]. now rewrite IH.
Qed.

Lemma NoDup_three (a b c : list string) (x : string) :
  NoDup (a ++ b ++ c) -> In x (a ++ b ++ c) ->
  (In x a /\ ~ In x b /\ ~ In x c) \/
  (~ In x a /\ In x b /\ ~ In x c) \/
  (~ In x a /\ ~ In x b /\ In x c).
Proof.
  intros Hnd Hin.
  assert (Hab : forall y, In y a -> ~ In y (b ++ c)).
  { intros y Ha Hbc. revert Hnd. clear - Ha Hbc.
    induction a as [| z a IH]; [contradiction |].
    cbn. intros Hnd. inversion Hnd as [| ? ? Hz Hrest]. subst.
    destruct Ha as [-> | Ha]; [| now apply IH].
    apply Hz. apply in_or_app. now right. }
  assert (Hbc : NoDup (b ++ c)).
  { revert Hnd. clear. induction a as [| z a IH]; [auto |].
    cbn. intros Hnd. inversion Hnd. auto. }
  assert (Hb : forall y, In y b -> ~ In y c).
  { intros y Hy Hc. revert Hbc. clear - Hy Hc.
    induction b as [| z b IH]; [contradiction |].
    cbn. intros Hnd. inversion Hnd as [| ? ? Hz Hrest]. subst.
    destruct Hy as [-> | Hy]; [| now apply IH].
    apply Hz. apply in_or_app. now right. }
  apply in_app_or in Hin. destruct Hin as [Ha | Hin].
  - left. split; [assumption |].
    split; intros H; apply (Hab x Ha); apply in_or_app; auto.
  - apply in_app_or in Hin. destruct Hin as [Hb' | Hc].
    + right. left. split; [| split; [assumption | now apply Hb]].
      intros Ha. apply (Hab x Ha). apply in_or_app. now left.
    + right. right. split; [| split; [| assumption]].
      * intros Ha. apply (Hab x Ha). apply in_or_app. now right.
      * intros Hb'. now apply (Hb x Hb').
Qed.

Lemma filter_three_lengths (cells a b c : list string) :
  (forall x, In x cells ->
     (In x a /\ ~ In x b /\ ~ In x c) \/
     (~ In x a /\ In x b /\ ~ In x c) \/
     (~ In x a /\ ~ In x b /\ In x c)) ->
  (length (filter (fun x => py_in x a) cells)
   + length (filter (fun x => py_in x b) cells)
   + length (filter (fun x => py_in x c) cells))%nat = length cells.
Proof.
  induction cells as [| x r IH]; intros Hone; [reflexivity |].
  cbn [filter length].
  specialize (IH (fun y Hy => Hone y (or_intror Hy))).
  specialize (Hone x (or_introl eq_refl)).
  destruct (py_in x a) eqn:Ea, (py_in x b) eqn:Eb, (py_in x c) eqn:Ec;
    repeat match goal with
           | E : py_in _ _ = true |- _ => apply py_in_In in E
           | E : py_in ?y ?l = false |- _ =>
               assert (~ In y l)
                 by (intros HIn; apply py_in_In in HIn; congruence);
               clear E
           end;
    cbn [length]; try lia; exfalso; tauto.
Qed.

Lemma select_rows_kept (ids cells : list string) :
  forall col, select_rows (isin cells ids) col = kept_rows ids cells col.
Proof.
  unfold isin, kept_rows.
  induction cells as [| c r IH]; intros col; [reflexivity |].
  destruct col as [| x col]; [reflexivity |].
  cbn [map select_rows combine filter fst].
  destruct (py_in c ids); cbn [map snd]; now rewrite IH.
Qed.

Lemma filter_frame_part (ids cells : list string)
  (df : list (string * list string)) :
  part_of ids cells df (filter_frame (isin cells ids) df).
Proof.
  unfold part_of, filter_frame.
  induction df as [| col df IH]; cbn [map]; constructor; [| exact IH].
  cbn [fst snd]. split; [reflexivity | apply select_rows_kept].
Qed.

(** X23: [dividr.py] loses and duplicates nothing.  The three lists of
    identifiers are consecutive runs of the distinct identifiers, the
    first two of a third of their number each, rounded down; every row of
    the base has its identifier in exactly one of the three lists; each
    part has the columns of the base, in the same order, every column
    reduced to the rows of its list in the order of the base; and the
    three parts together have as many rows as the base. *)
Theorem dividr_partition
  (df : list (string * list string)) (cells : list string) :
  column "Contract_ID" df = Some cells ->
  exists df1 df2 df3 ids1 ids2 ids3,
    dividr (Sheet df) = Ret (df1, df2, df3) /\
    (ids1 ++ ids2 ++ ids3)%list = unique cells /\
    Z.of_nat (length ids1) = Z.of_nat (length (unique cells)) / 3 /\
    length ids2 = length ids1 /\
    column "Contract_ID" df1 = Some (filter (fun c => py_in c ids1) cells) /\
    column "Contract_ID" df2 = Some (filter (fun c => py_in c ids2) cells) /\
    column "Contract_ID" df3 = Some (filter (fun c => py_in c ids3) cells) /\
    (forall c, In c cells ->
       (In c ids1 /\ ~ In c ids2 /\ ~ In c ids3) \/
       (~ In c ids1 /\ In c ids2 /\ ~ In c ids3) \/
       (~ In c ids1 /\ ~ In c ids2 /\ In c ids3)) /\
    (length (filter (fun c => py_in c ids1) cells)
     + length (filter (fun c => py_in c ids2) cells)
     + length (filter (fun c => py_in c ids3) cells))%nat = length cells /\
    part_of ids1 cells df df1 /\
    part_of ids2 cells df df2 /\
    part_of ids3 cells df df3.
Proof.
  intros Hcol. unfold dividr. rewrite Hcol. cbv zeta.
  destruct (thirds (unique cells)) as (Hcat & Hl1 & Hl2). cbv zeta in *.
  set (p := Z.of_nat (length (unique cells)) / 3) in *.
  set (ids1 := py_slice (unique cells) 0 p) in *.
  set (ids2 := py_slice (unique cells) p (2 * p)) in *.
  set (ids3 := py_slice_from (unique cells) (2 * p)) in *.
  assert (Hp : 0 <= p).
  { subst p. apply Z.div_pos; lia. }
  assert (Hone : forall c, In c cells ->
            (In c ids1 /\ ~ In c ids2 /\ ~ In c ids3) \/
            (~ In c ids1 /\ In c ids2 /\ ~ In c ids3) \/
            (~ In c ids1 /\ ~ In c ids2 /\ In c ids3)).
  { intros c Hc. apply NoDup_three.
    - rewrite Hcat. apply unique_from_NoDup.
    - rewrite Hcat. apply unique_from_In. cbn. tauto. }
  do 3 eexists. exists ids1, ids2, ids3.
  split; [reflexivity |]. split; [exact Hcat |].
  split; [lia |]. split; [lia |].
  rewrite !column_filter_frame, Hcol. cbn [option_map].
  rewrite !select_rows_isin.
  repeat (split; [reflexivity |]).
  split; [exact Hone |].
  split; [now apply filter_three_lengths |].
  repeat split; apply filter_frame_part.
Qed.

Lemma dividr_partition_witness :
  exists df1 df2 df3 ids1,
    dividr (Sheet [("Contract_ID", ["A"; "B"; "A"; "C"; "D"]);
                   ("Supplier", ["s1"; "s2"; "s3"; "s4"; "s5"])])
    = Ret (df1, df2, df3) /\
    part_of ids1 ["A"; "B"; "A"; "C"; "D"]
      [("Contract_ID", ["A"; "B"; "A"; "C"; "D"]);
       ("Supplier", ["s1"; "s2"; "s3"; "s4"; "s5"])] df1.
Proof.
  destruct (dividr_partition
              [("Contract_ID", ["A"; "B"; "A"; "C"; "D"]);
               ("Supplier", ["s1"; "s2"; "s3"; "s4"; "s5"])]
              ["A"; "B"; "A"; "C"; "D"] eq_refl)
    as (df1 & df2 & df3 & ids1 & ids2 & ids3 & Hrun & _ & _ & _ & _ & _ & _
        & _ & _ & Hpart & _).
  exists df1, df2, df3, ids1. split; assumption.
Defined.
